(** * BuffetGPT decision pipeline: a shallow embedding and its properties

    The development follows the Python sources under [backend/app]:
    [models/schemas.py], [config.py] and the agents [nutrition.py],
    [stomach.py], [optimization.py], [strategy.py] and [pipeline.py].

    Modelling conventions.
    - Python [float] and [int] values are exact rationals ([Q]); a comparison
      of two numbers is a comparison of their values ([Qle_bool], [Qeq_bool]).
      Binary rounding of IEEE doubles is not part of the model.
    - Python [str] is [string]; [str.lower], [str.strip] and [str.title] act
      on the ASCII range and leave every other byte as it is.
    - A [dict] whose iteration order matters is an association list in
      insertion order.  A [set] of strings is iterated in an order that the
      interpreter fixes per process from its hash seed; that order is an
      explicit argument ([HashOrder]).
    - [x in xs] on a list of pydantic models compares field by field. *)

From Stdlib Require Import ZArith QArith Qround Qminmax Lqa Lia.
From Stdlib Require Import List String Ascii Bool Permutation Sorted.
From Stdlib Require Import DecimalString.
Import ListNotations.

Open Scope string_scope.
Open Scope list_scope.
Open Scope Q_scope.

(* ================================================================= *)
(** ** Python built-ins used by the agents *)

Module Py.

(** *** Strings *)

Definition lower_char (c : ascii) : ascii :=
  let n := nat_of_ascii c in
  if ((65 <=? n) && (n <=? 90))%nat then ascii_of_nat (n + 32) else c.

Definition upper_char (c : ascii) : ascii :=
  let n := nat_of_ascii c in
  if ((97 <=? n) && (n <=? 122))%nat then ascii_of_nat (n - 32) else c.

Definition is_cased (c : ascii) : bool :=
  let n := nat_of_ascii c in
  (((65 <=? n) && (n <=? 90)) || ((97 <=? n) && (n <=? 122)))%nat.

(** [str.isspace] on the ASCII range: TAB..CR, FS..US and the blank. *)
Definition isspace (c : ascii) : bool :=
  let n := nat_of_ascii c in
  (((9 <=? n) && (n <=? 13)) || ((28 <=? n) && (n <=? 32)))%nat.

(** [s.lower()] *)
Fixpoint lower (s : string) : string :=
  match s with
  | EmptyString => EmptyString
  | String c r => String (lower_char c) (lower r)
  end.

(** [needle in hay] for two strings. *)
Fixpoint contains (needle hay : string) : bool :=
  String.prefix needle hay
  || match hay with
     | EmptyString => false
     | String _ r => contains needle r
     end.

Fixpoint lstrip (s : string) : string :=
  match s with
  | EmptyString => EmptyString
  | String c r => if isspace c then lstrip r else s
  end.

Fixpoint rstrip (s : string) : string :=
  match s with
  | EmptyString => EmptyString
  | String c r =>
      match rstrip r with
      | EmptyString => if isspace c then EmptyString else String c EmptyString
      | r' => String c r'
      end
  end.

(** [s.strip()] *)
Definition strip (s : string) : string := rstrip (lstrip s).

(** [s.replace(old, new)] for one-character [old] and [new]. *)
Fixpoint replace_char (old new : ascii) (s : string) : string :=
  match s with
  | EmptyString => EmptyString
  | String c r =>
      String (if Ascii.eqb c old then new else c) (replace_char old new r)
  end.

(** [s.title()]: a cased character is upper-cased when it follows an
    uncased one (or starts the string) and lower-cased otherwise. *)
Fixpoint title_from (prev_cased : bool) (s : string) : string :=
  match s with
  | EmptyString => EmptyString
  | String c r =>
      String (if prev_cased then lower_char c else upper_char c)
             (title_from (is_cased c) r)
  end.

Definition title (s : string) : string := title_from false s.

(** [sep.join(parts)] *)
Fixpoint join (sep : string) (parts : list string) : string :=
  match parts with
  | [] => EmptyString
  | [p] => p
  | p :: rest => (p ++ sep ++ join sep rest)%string
  end.

(** [any(kw in s for kw in kws)] *)
Definition any_in (kws : list string) (s : string) : bool :=
  existsb (fun kw => contains kw s) kws.

(** [x in xs] for a list of strings. *)
Definition str_in (x : string) (xs : list string) : bool :=
  existsb (String.eqb x) xs.

(** *** Numbers *)

Definition Qlt_bool (a b : Q) : bool := negb (Qle_bool b a).

(** Truthiness of a number: [if x] holds unless [x == 0]. *)
Definition truthy (x : Q) : bool := negb (Qeq_bool x 0).

(** [x or y] on numbers. *)
Definition num_or (x y : Q) : Q := if truthy x then x else y.

(** Nearest integer, ties to the even one. *)
Definition round_half_even (x : Q) : Z :=
  let f := Qfloor x in
  match ((x - inject_Z f) ?= (1 # 2))%Q with
  | Lt => f
  | Gt => (f + 1)%Z
  | Eq => if Z.even f then f else (f + 1)%Z
  end.

Definition pow10 (n : nat) : Q := inject_Z (10 ^ Z.of_nat n).

(** [round(x, ndigits)] *)
Definition round (x : Q) (ndigits : nat) : Q :=
  inject_Z (round_half_even (x * pow10 ndigits)) / pow10 ndigits.

(** [sum(xs)] starts from 0 and adds from the left. *)
Definition sum (xs : list Q) : Q := fold_left Qplus xs 0.

Definition len {A : Type} (xs : list A) : Q :=
  inject_Z (Z.of_nat (List.length xs)).

(** *** [list.sort(key=...)] and [sorted(..., key=...)]

    Both are stable.  For a total preorder on keys the stable arrangement
    is unique, and insertion into a sorted suffix, in front of the first
    element that is not smaller, produces it. *)
Section Sort.
Context {A : Type} (key : A -> Q).

Fixpoint insert_by (x : A) (l : list A) : list A :=
  match l with
  | [] => [x]
  | y :: r =>
      if Qle_bool (key x) (key y) then x :: l else y :: insert_by x r
  end.

Definition sort_by (l : list A) : list A := fold_right insert_by [] l.

(** The order that the result is sorted by. *)
Definition key_le (a b : A) : Prop := key a <= key b.
End Sort.

(** *** Number literals and their [repr]

    The nutrition table is written with integer literals and with float
    literals that have one fractional digit; [repr] prints such a float the
    way it was written. *)
Inductive number : Type :=
| PyInt (n : N)
| PyFloat (whole tenths : N).

Definition value (x : number) : Q :=
  match x with
  | PyInt n => inject_Z (Z.of_N n)
  | PyFloat w t => inject_Z (Z.of_N w) + inject_Z (Z.of_N t) / 10
  end.

Definition repr_N (n : N) : string := NilZero.string_of_uint (N.to_uint n).

Definition repr_number (x : number) : string :=
  match x with
  | PyInt n => repr_N n
  | PyFloat w t => (repr_N w ++ "." ++ repr_N t)%string
  end.

(** [repr] of a string without quotes or escapes inside. *)
Definition repr_str (s : string) : string := ("'" ++ s ++ "'")%string.

(** *** [str.split] with a one-character separator

    The result is never empty: the empty string splits into one empty
    piece, and a separator at either end leaves an empty piece there. *)
Fixpoint split (sep : ascii) (s : string) : list string :=
  match s with
  | EmptyString => [EmptyString]
  | String c r =>
      if Ascii.eqb c sep then EmptyString :: split sep r
      else match split sep r with
           | piece :: pieces => String c piece :: pieces
           | [] => [String c EmptyString]
           end
  end.

(** [c in s] for a character [c]. *)
Fixpoint has_char (c : ascii) (s : string) : bool :=
  match s with
  | EmptyString => false
  | String x r => Ascii.eqb x c || has_char c r
  end.

(** Truthiness of a string: [if s] holds unless [s] is empty. *)
Definition nonempty (s : string) : bool :=
  match s with
  | EmptyString => false
  | String _ _ => true
  end.

End Py.

(* ================================================================= *)
(** ** config.py *)

Module settings.
Definition STOMACH_CAPACITY_ML : Q := 1350.
Definition DEFAULT_CALORIE_LIMIT : Z := 2000.
End settings.

(* ================================================================= *)
(** ** models/schemas.py

    A subclass is the record of its parent together with the fields it adds.
    [bounding_box] is [None] in every [DetectedDish] the repository builds
    and is left out. *)

Record DetectedDish : Type := mkDetectedDish {
  name : string;
  confidence : Q;
  estimated_portion_density : Q;
  cooking_method : option string;
  cuisine_type : option string;
  estimated_grams : Q
}.

Record NutritionalData : Type := mkNutritionalData {
  calories : Q;
  protein : Q;
  fat : Q;
  carbs : Q;
  fiber : Q;
  glycemic_load : Q;
  nutrition_confidence : Q
}.

Record DishWithNutrition : Type := mkDishWithNutrition {
  detected : DetectedDish;
  nutrition_per_100g : NutritionalData
}.

Record StomachImpact : Type := mkStomachImpact {
  volume_ml : Q;
  satiety_score : Q;
  digestion_speed : string;
  fullness_contribution : Q
}.

Record DishWithStomachImpact : Type := mkDishWithStomachImpact {
  with_nutrition : DishWithNutrition;
  stomach_impact : StomachImpact
}.

(** Inherited attributes of [DishWithStomachImpact]. *)
Definition name_of (d : DishWithStomachImpact) : string :=
  name (detected (with_nutrition d)).
Definition grams_of (d : DishWithStomachImpact) : Q :=
  estimated_grams (detected (with_nutrition d)).
Definition nutrition_of (d : DishWithStomachImpact) : NutritionalData :=
  nutrition_per_100g (with_nutrition d).

(** [BaseModel.__eq__]: two models are equal when all their fields are. *)
Definition opt_str_eqb (a b : option string) : bool :=
  match a, b with
  | Some x, Some y => String.eqb x y
  | None, None => true
  | _, _ => false
  end.

Definition detected_eqb (a b : DetectedDish) : bool :=
  String.eqb (name a) (name b)
  && Qeq_bool (confidence a) (confidence b)
  && Qeq_bool (estimated_portion_density a) (estimated_portion_density b)
  && opt_str_eqb (cooking_method a) (cooking_method b)
  && opt_str_eqb (cuisine_type a) (cuisine_type b)
  && Qeq_bool (estimated_grams a) (estimated_grams b).

Definition nutrition_eqb (a b : NutritionalData) : bool :=
  Qeq_bool (calories a) (calories b)
  && Qeq_bool (protein a) (protein b)
  && Qeq_bool (fat a) (fat b)
  && Qeq_bool (carbs a) (carbs b)
  && Qeq_bool (fiber a) (fiber b)
  && Qeq_bool (glycemic_load a) (glycemic_load b)
  && Qeq_bool (nutrition_confidence a) (nutrition_confidence b).

Definition impact_eqb (a b : StomachImpact) : bool :=
  Qeq_bool (volume_ml a) (volume_ml b)
  && Qeq_bool (satiety_score a) (satiety_score b)
  && String.eqb (digestion_speed a) (digestion_speed b)
  && Qeq_bool (fullness_contribution a) (fullness_contribution b).

Definition dish_eqb (a b : DishWithStomachImpact) : bool :=
  detected_eqb (detected (with_nutrition a)) (detected (with_nutrition b))
  && nutrition_eqb (nutrition_of a) (nutrition_of b)
  && impact_eqb (stomach_impact a) (stomach_impact b).

(** [d in ds] for a list of dishes. *)
Definition dish_in (d : DishWithStomachImpact)
  (ds : list DishWithStomachImpact) : bool :=
  existsb (dish_eqb d) ds.

Module PhaseItem.
(** The reason is an f-string around at most one number; the number is kept
    as a value, not as its printed form. *)
Inductive reason_text : Type :=
| VolumeFill
| HighProtein (protein_per_100g : Q)
| LowGlycemicLoad (glycemic_load : Q)
| BalancedPortion.

Record t : Type := mk {
  dish_name : string;
  portion_grams : Q;
  portion_ml : option Q;
  calories : Q;
  protein : Q;
  carbs : Q;
  fat : Q;
  reason : reason_text
}.
End PhaseItem.

(** The dict built for one phase in [StrategyPlanningAgent.process]
    (the shape of [EatingPhase]). *)
Record EatingPhase : Type := mkEatingPhase {
  phase_name : string;
  phase_order : Z;
  items : list PhaseItem.t
}.

(* ================================================================= *)
(** ** agents/nutrition.py *)

Module NutritionAgent.

(** One value of the table: a dict with the keys
    [cal], [protein], [fat], [carbs], [fiber], [gl]. *)
Record entry : Type := mkEntry {
  cal : Py.number;
  e_protein : Py.number;
  e_fat : Py.number;
  e_carbs : Py.number;
  e_fiber : Py.number;
  gl : Py.number
}.

Definition I (n : N) : Py.number := Py.PyInt n.
Definition F (w t : N) : Py.number := Py.PyFloat w t.

Definition _load_nutrition_db : list (string * entry) :=
  [ ("mixed salad", mkEntry (I 18) (F 1 5) (F 0 3) (F 3 5) (F 1 2) (I 2));
    ("salad", mkEntry (I 18) (F 1 5) (F 0 3) (F 3 5) (F 1 2) (I 2));
    ("grilled chicken", mkEntry (I 165) (I 31) (F 3 6) (I 0) (I 0) (I 0));
    ("chicken", mkEntry (I 165) (I 31) (F 3 6) (I 0) (I 0) (I 0));
    ("roasted vegetables", mkEntry (I 65) (I 2) (I 3) (I 8) (F 2 5) (I 4));
    ("vegetables", mkEntry (I 65) (I 2) (I 3) (I 8) (F 2 5) (I 4));
    ("rice", mkEntry (I 130) (F 2 7) (F 0 3) (I 28) (F 0 4) (I 23));
    ("bread roll", mkEntry (I 265) (F 8 5) (F 3 2) (I 50) (F 2 7) (I 25));
    ("bread", mkEntry (I 265) (F 8 5) (F 3 2) (I 50) (F 2 7) (I 25));
    ("soup", mkEntry (I 45) (F 2 5) (F 1 5) (I 6) (I 1) (I 5));
    ("pasta", mkEntry (I 131) (I 5) (F 1 1) (I 25) (F 1 8) (I 18));
    ("dessert", mkEntry (I 350) (I 4) (I 15) (I 50) (I 1) (I 35));
    ("cake", mkEntry (I 350) (I 4) (I 15) (I 50) (I 1) (I 35));
    ("donut", mkEntry (I 421) (I 5) (I 22) (I 52) (F 1 5) (I 40));
    ("pizza", mkEntry (I 266) (I 11) (I 10) (I 33) (F 2 3) (I 22));
    ("hot dog", mkEntry (I 290) (I 10) (I 26) (I 4) (I 0) (I 3));
    ("sandwich", mkEntry (I 250) (I 12) (I 10) (I 28) (F 1 5) (I 20));
    ("broccoli", mkEntry (I 34) (F 2 8) (F 0 4) (I 7) (F 2 6) (I 2));
    ("carrot", mkEntry (I 41) (F 0 9) (F 0 2) (I 10) (F 2 8) (I 5));
    ("apple", mkEntry (I 52) (F 0 3) (F 0 2) (I 14) (F 2 4) (I 6));
    ("orange", mkEntry (I 47) (F 0 9) (F 0 1) (I 12) (F 2 4) (I 5));
    ("banana", mkEntry (I 89) (F 1 1) (F 0 3) (I 23) (F 2 6) (I 12));
    ("steak", mkEntry (I 271) (I 26) (I 18) (I 0) (I 0) (I 0));
    ("fish", mkEntry (I 206) (I 22) (I 12) (I 0) (I 0) (I 0));
    ("salmon", mkEntry (I 208) (I 20) (I 13) (I 0) (I 0) (I 0));
    ("fried chicken", mkEntry (I 287) (I 23) (I 18) (I 12) (F 0 5) (I 8));
    ("potato", mkEntry (I 77) (I 2) (F 0 1) (I 17) (F 2 2) (I 14));
    ("fries", mkEntry (I 312) (F 3 4) (I 15) (I 42) (F 3 8) (I 25));
    ("cheese", mkEntry (I 402) (I 25) (I 33) (F 1 3) (I 0) (I 0));
    ("eggs", mkEntry (I 155) (I 13) (I 11) (F 1 1) (I 0) (I 0));
    ("beans", mkEntry (I 127) (F 8 7) (F 0 5) (I 23) (F 6 4) (I 6));
    ("lentils", mkEntry (I 116) (I 9) (F 0 4) (I 20) (F 7 9) (I 5));
    ("quinoa", mkEntry (I 120) (F 4 4) (F 1 9) (I 21) (F 2 8) (I 13));
    ("hummus", mkEntry (I 166) (F 7 9) (F 9 6) (I 14) (I 6) (I 4)) ].

(** [self._db], set once in [__init__]. *)
Definition _db : list (string * entry) := _load_nutrition_db.

(** The generic mixed dish returned when nothing matches. *)
Definition default_entry : entry :=
  mkEntry (I 150) (I 8) (I 8) (I 12) (F 1 5) (I 10).

(** [db.get(k)]: [None] stands for [k not in db]. *)
Fixpoint dict_get (db : list (string * entry)) (k : string) : option entry :=
  match db with
  | [] => None
  | (k', v) :: rest => if String.eqb k k' then Some v else dict_get rest k
  end.

(** The loop over [self._db.items()]: the first key that is inside the
    name, or that the name is inside of, wins. *)
Fixpoint partial_match (db : list (string * entry)) (name_lower : string)
  : option entry :=
  match db with
  | [] => None
  | (key, val) :: rest =>
      if Py.contains key name_lower || Py.contains name_lower key
      then Some val
      else partial_match rest name_lower
  end.

Definition _lookup (dish_name : string) : entry :=
  let name_lower := Py.strip (Py.lower dish_name) in
  match dict_get _db name_lower with
  | Some v => v
  | None =>
      match partial_match _db name_lower with
      | Some v => v
      | None => default_entry
      end
  end.

(** [str(d)] for a value of the table and for the table itself. *)
Definition repr_entry (e : entry) : string :=
  ("{'cal': " ++ Py.repr_number (cal e)
    ++ ", 'protein': " ++ Py.repr_number (e_protein e)
    ++ ", 'fat': " ++ Py.repr_number (e_fat e)
    ++ ", 'carbs': " ++ Py.repr_number (e_carbs e)
    ++ ", 'fiber': " ++ Py.repr_number (e_fiber e)
    ++ ", 'gl': " ++ Py.repr_number (gl e) ++ "}")%string.

Definition repr_db (db : list (string * entry)) : string :=
  ("{" ++ Py.join ", "
            (map (fun kv => Py.repr_str (fst kv) ++ ": " ++ repr_entry (snd kv))
                 db)
       ++ "}")%string.

Definition process_one (d : DetectedDish) : DishWithNutrition :=
  let nd := _lookup (name d) in
  let nutrition :=
    mkNutritionalData
      (Py.value (cal nd))
      (Py.value (e_protein nd))
      (Py.value (e_fat nd))
      (Py.value (e_carbs nd))
      (Py.value (e_fiber nd))
      (Py.value (gl nd))
      (if Py.contains (Py.lower (name d)) (repr_db _db) then 0.9 else 0.7) in
  mkDishWithNutrition
    (mkDetectedDish (name d) (confidence d) (estimated_portion_density d)
                    (cooking_method d) (cuisine_type d) (estimated_grams d))
    nutrition.

Definition process (dishes : list DetectedDish) : list DishWithNutrition :=
  map process_one dishes.

End NutritionAgent.

(* ================================================================= *)
(** ** agents/stomach.py *)

Module StomachPhysicsAgent.

Definition STOMACH_CAPACITY_ML : Q := settings.STOMACH_CAPACITY_ML.

Definition _satiety_score (dish : DishWithNutrition) : Q :=
  let n := nutrition_per_100g dish in
  let cal := Qmax (calories n) 10 in
  let protein_score := protein n * 2 in
  let fiber_score := fiber n * 3 in
  let volume_score := if Py.Qlt_bool 0 cal then 100 / (cal / 100) else 0 in
  let fat_penalty := fat n * 0.5 in
  Qmax 0 (protein_score + fiber_score + volume_score - fat_penalty).

Definition _digestion_speed (dish : DishWithNutrition) : string :=
  let n := nutrition_per_100g dish in
  if Py.Qlt_bool (calories n) 60 && Py.Qlt_bool (fat n) 2 then "fast"
  else if Py.Qlt_bool 15 (fat n) then "slow"
  else if Py.Qlt_bool 5 (fiber n) then "medium"
  else "medium".

Definition _volume_ml (dish : DishWithNutrition) : Q :=
  let density := Py.num_or (estimated_portion_density (detected dish)) 1 in
  estimated_grams (detected dish) / density.

Definition process_one (d : DishWithNutrition) : DishWithStomachImpact :=
  let vol := _volume_ml d in
  let satiety := _satiety_score d in
  let speed := _digestion_speed d in
  let fullness :=
    Qmin 1 ((vol / STOMACH_CAPACITY_ML) * (1 + satiety * 0.1)) in
  let impact :=
    mkStomachImpact vol (Py.round satiety 2) speed (Py.round fullness 3) in
  mkDishWithStomachImpact d impact.

Definition process (dishes : list DishWithNutrition)
  : list DishWithStomachImpact :=
  map process_one dishes.

End StomachPhysicsAgent.

(* ================================================================= *)
(** ** agents/optimization.py *)

(** The two [set] literals of [_filter_dietary], each with the order in which
    the running interpreter iterates it. *)
Record HashOrder : Type := mkHashOrder {
  non_vegan : list string;
  non_veg : list string
}.

Definition non_vegan_literal : list string :=
  ["chicken"; "meat"; "fish"; "salmon"; "steak"; "eggs"; "cheese"].

Definition non_veg_literal : list string :=
  ["chicken"; "meat"; "fish"; "salmon"; "steak"; "hot dog"].

Definition written_order : HashOrder :=
  mkHashOrder non_vegan_literal non_veg_literal.

(** An order the interpreter can choose: the elements of the literal, each
    once. *)
Definition possible_order (h : HashOrder) : Prop :=
  Permutation (non_vegan h) non_vegan_literal
  /\ Permutation (non_veg h) non_veg_literal.

Module GoalOptimizationAgent.

Record t : Type := mk {
  calorie_limit : Z;
  stomach_capacity_ml : Q
}.

(** [calorie_limit or settings.DEFAULT_CALORIE_LIMIT]: [None] and [0] both
    give the default. *)
Definition or_default (calorie_limit : option Z) : Z :=
  match calorie_limit with
  | Some c => if (c =? 0)%Z then settings.DEFAULT_CALORIE_LIMIT else c
  | None => settings.DEFAULT_CALORIE_LIMIT
  end.

Definition __init__ (calorie_limit : option Z) (stomach_capacity_ml : Q) : t :=
  mk (or_default calorie_limit) stomach_capacity_ml.

Definition _goal_reward (dish : DishWithStomachImpact) (goal : string) : Q :=
  let n := nutrition_of dish in
  let g := grams_of dish / 100 in
  let sat := satiety_score (stomach_impact dish) in
  if String.eqb goal "fat_loss" then
    (protein n * 2 + fiber n * 2 - calories n / 50) * g
  else if String.eqb goal "muscle_gain" then
    (protein n * 3 + carbs n * 0.5) * g
  else if String.eqb goal "blood_sugar" then
    (10 - glycemic_load n + fiber n * 2) * g
  else
    (sat + protein n * 0.5) * g.

Definition _filter_allergies (dishes : list DishWithStomachImpact)
  (allergies : list string) : list DishWithStomachImpact :=
  match allergies with
  | [] => dishes
  | _ =>
      let allergen_keywords := map Py.lower allergies in
      filter (fun d => negb (Py.any_in allergen_keywords (Py.lower (name_of d))))
             dishes
  end.

Definition _filter_dietary (h : HashOrder)
  (dishes : list DishWithStomachImpact) (filters : list string)
  : list DishWithStomachImpact :=
  match filters with
  | [] => dishes
  | _ =>
      let filter_lower := map Py.lower filters in
      if Py.str_in "vegan" filter_lower then
        filter (fun d => negb (Py.any_in (non_vegan h) (Py.lower (name_of d))))
               dishes
      else if Py.str_in "vegetarian" filter_lower then
        filter (fun d => negb (Py.any_in (non_veg h) (Py.lower (name_of d))))
               dishes
      else dishes
  end.

(** State of the selection loop: [selected], [total_cal], [total_vol]. *)
Record loop_state : Type := mkState {
  selected : list DishWithStomachImpact;
  total_cal : Q;
  total_vol : Q
}.

Definition cal_of (d : DishWithStomachImpact) : Q :=
  calories (nutrition_of d) * (grams_of d / 100).

Definition vol_of (d : DishWithStomachImpact) : Q :=
  volume_ml (stomach_impact d).

(** The test of the loop body for dish [d] in state [st]. *)
Definition fits (self : t) (st : loop_state) (d : DishWithStomachImpact)
  : bool :=
  Qle_bool (total_cal st + cal_of d) (inject_Z (calorie_limit self))
  && Qle_bool (total_vol st + vol_of d) (stomach_capacity_ml self * 1.1).

(** One iteration of [for _, d in scored]. *)
Definition step (self : t) (st : loop_state)
  (sd : Q * DishWithStomachImpact) : loop_state :=
  let d := snd sd in
  if fits self st d
  then mkState (selected st ++ [d]) (total_cal st + cal_of d)
               (total_vol st + vol_of d)
  else st.

(** [for _, d in scored], from state [st]. *)
Definition loop (self : t) (scored : list (Q * DishWithStomachImpact))
  (st : loop_state) : loop_state :=
  fold_left (step self) scored st.

(** [selected = []], [total_cal = 0], [total_vol = 0]. *)
Definition init : loop_state := mkState [] 0 0.

Definition or_empty (xs : option (list string)) : list string :=
  match xs with
  | Some l => l
  | None => []
  end.

(** The filtered list that scoring and selection work on. *)
Definition filtered (h : HashOrder) (dishes : list DishWithStomachImpact)
  (allergies dietary_filters : option (list string))
  : list DishWithStomachImpact :=
  _filter_dietary h (_filter_allergies dishes (or_empty allergies))
                  (or_empty dietary_filters).

(** [scored] after [scored.sort(key=lambda x: -x[0])]. *)
Definition scored (dishes : list DishWithStomachImpact) (goal : string)
  : list (Q * DishWithStomachImpact) :=
  Py.sort_by (fun x => - fst x)
             (map (fun d => (_goal_reward d goal, d)) dishes).

Definition process (self : t) (h : HashOrder)
  (dishes : list DishWithStomachImpact) (goal : string)
  (allergies dietary_filters : option (list string))
  : list DishWithStomachImpact * list DishWithStomachImpact :=
  let dishes := filtered h dishes allergies dietary_filters in
  match dishes with
  | [] => ([], [])
  | _ =>
      let final := loop self (scored dishes goal) init in
      let skip := filter (fun d => negb (dish_in d (selected final))) dishes in
      (selected final, skip)
  end.

End GoalOptimizationAgent.

(* ================================================================= *)
(** ** agents/strategy.py *)

Module StrategyPlanningAgent.

Definition _classify_phase (dish : DishWithStomachImpact) : string :=
  let n := nutrition_of dish in
  let name_lower := Py.lower (name_of dish) in
  if Py.any_in ["soup"; "salad"; "broth"; "consomme"] name_lower then
    "starter"
  else if Py.Qlt_bool 15 (protein n)
          || Py.any_in ["chicken"; "fish"; "steak"; "salmon"; "meat"; "eggs"]
                       name_lower then
    "protein"
  else if Py.any_in ["dessert"; "cake"; "donut"; "cookie"; "pastry"]
                    name_lower then
    "treats"
  else if Py.any_in ["rice"; "pasta"; "bread"; "potato"; "quinoa"; "beans"]
                    name_lower then
    "carbs"
  else if Py.any_in ["vegetable"; "broccoli"; "carrot"] name_lower then
    "vegetables"
  else if Py.Qlt_bool 10 (protein n) then "protein"
  else if Py.Qlt_bool 20 (carbs n) then "carbs"
  else "vegetables".

(** [order_map.get(phase_name, 3)] *)
Definition _phase_order (phase_name : string) : Z :=
  if String.eqb phase_name "starter" then 1
  else if String.eqb phase_name "protein" then 2
  else if String.eqb phase_name "vegetables" then 3
  else if String.eqb phase_name "carbs" then 4
  else if String.eqb phase_name "treats" then 5
  else 3.

Definition _compute_portion (dish : DishWithStomachImpact)
  (selected_dishes : list DishWithStomachImpact)
  (calorie_budget_remaining stomach_remaining_ml : Q)
  : Q * PhaseItem.reason_text :=
  let n := nutrition_of dish in
  let cal_per_100 := calories n in
  let vol_per_100 :=
    if Py.truthy (grams_of dish)
    then volume_ml (stomach_impact dish) / (grams_of dish / 100)
    else 100 in
  let max_by_cal :=
    if Py.Qlt_bool 0 cal_per_100
    then (calorie_budget_remaining / cal_per_100) * 100
    else 500 in
  let max_by_vol :=
    if Py.Qlt_bool 0 vol_per_100
    then (stomach_remaining_ml / vol_per_100) * 100
    else 500 in
  let portion := Qmin (Qmin (Qmin (grams_of dish) max_by_cal) max_by_vol) 250 in
  let portion := Qmax 20 (Py.round portion 0) in
  let reason :=
    if Py.contains "soup" (Py.lower (name_of dish))
       || Py.contains "salad" (Py.lower (name_of dish))
    then PhaseItem.VolumeFill
    else if Py.Qlt_bool 15 (protein n) then PhaseItem.HighProtein (protein n)
    else if Py.Qlt_bool (glycemic_load n) 5
         then PhaseItem.LowGlycemicLoad (glycemic_load n)
    else PhaseItem.BalancedPortion in
  (portion, reason).

(** [phase_groups.setdefault(phase, []).append(d)] on the dict in insertion
    order. *)
Fixpoint setdefault_append (phase : string) (d : DishWithStomachImpact)
  (groups : list (string * list DishWithStomachImpact))
  : list (string * list DishWithStomachImpact) :=
  match groups with
  | [] => [(phase, [d])]
  | (k, ds) :: rest =>
      if String.eqb phase k then (k, ds ++ [d]) :: rest
      else (k, ds) :: setdefault_append phase d rest
  end.

Definition phase_groups (selected_dishes : list DishWithStomachImpact)
  : list (string * list DishWithStomachImpact) :=
  fold_left (fun groups d => setdefault_append (_classify_phase d) d groups)
            selected_dishes [].

(** [phase_groups[phase_name]] *)
Fixpoint group_of (groups : list (string * list DishWithStomachImpact))
  (phase_name : string) : list DishWithStomachImpact :=
  match groups with
  | [] => []
  | (k, ds) :: rest =>
      if String.eqb phase_name k then ds else group_of rest phase_name
  end.

(** The running totals [total_calories] and [stomach_used_ml]. *)
Record totals : Type := mkTotals {
  total_calories : Q;
  stomach_used_ml : Q
}.

(** [item.portion_ml or (portion * 1.0)] *)
Definition ml_or (portion_ml : option Q) (portion : Q) : Q :=
  match portion_ml with
  | Some v => Py.num_or v (portion * 1)
  | None => portion * 1
  end.

(** Body of [for dish in dishes]. *)
Definition plan_dish (selected_dishes : list DishWithStomachImpact)
  (calorie_limit : Z) (acc : totals) (dish : DishWithStomachImpact)
  : PhaseItem.t * totals :=
  let stomach_capacity := settings.STOMACH_CAPACITY_ML in
  let cal_remaining := inject_Z calorie_limit - total_calories acc in
  let vol_remaining := stomach_capacity - stomach_used_ml acc in
  let '(portion, reason) :=
    _compute_portion dish selected_dishes cal_remaining vol_remaining in
  let n := nutrition_of dish in
  let factor := portion / 100 in
  let item :=
    PhaseItem.mk
      (name_of dish)
      portion
      (if Py.truthy (grams_of dish)
       then Some (Py.round (volume_ml (stomach_impact dish)
                            * (portion / grams_of dish)) 1)
       else None)
      (Py.round (calories n * factor) 1)
      (Py.round (protein n * factor) 1)
      (Py.round (carbs n * factor) 1)
      (Py.round (fat n * factor) 1)
      reason in
  (item,
   mkTotals (total_calories acc + PhaseItem.calories item)
            (stomach_used_ml acc
             + ml_or (PhaseItem.portion_ml item) portion)).

Fixpoint plan_dishes (selected_dishes : list DishWithStomachImpact)
  (calorie_limit : Z) (acc : totals) (dishes : list DishWithStomachImpact)
  : list PhaseItem.t * totals :=
  match dishes with
  | [] => ([], acc)
  | dish :: rest =>
      let '(item, acc1) := plan_dish selected_dishes calorie_limit acc dish in
      let '(items, acc2) :=
        plan_dishes selected_dishes calorie_limit acc1 rest in
      (item :: items, acc2)
  end.

(** Body of [for phase_name in sorted(...)], over the remaining names. *)
Fixpoint plan_phases (selected_dishes : list DishWithStomachImpact)
  (calorie_limit : Z)
  (groups : list (string * list DishWithStomachImpact))
  (acc : totals) (phase_names : list string)
  : list EatingPhase * totals :=
  match phase_names with
  | [] => ([], acc)
  | phase_name :: rest =>
      let dishes := group_of groups phase_name in
      let '(items, acc1) :=
        plan_dishes selected_dishes calorie_limit acc dishes in
      let phase :=
        mkEatingPhase (Py.title (Py.replace_char "_" " " phase_name))
                      (_phase_order phase_name)
                      items in
      let '(phases, acc2) :=
        plan_phases selected_dishes calorie_limit groups acc1 rest in
      (phase :: phases, acc2)
  end.

Record skip_entry : Type := mkSkip {
  skip_name : string;
  skip_reason : string
}.

Record strategy : Type := mkStrategy {
  phase_1 : option EatingPhase;
  phase_2 : option EatingPhase;
  phase_3 : option EatingPhase;
  phase_4 : option EatingPhase;
  phase_5 : option EatingPhase;
  phases : list EatingPhase;
  skip : list skip_entry;
  strategy_total_calories : Q;
  fullness_score : Q;
  strategy_stomach_used_ml : Q
}.

(** [", ".join(i["dish_name"] for i in p["items"])] *)
Definition item_names (p : EatingPhase) : string :=
  Py.join ", " (map PhaseItem.dish_name (items p)).

Definition named (kw : string) (p : EatingPhase) : bool :=
  Py.contains kw (Py.lower (phase_name p)).

(** [xs and xs[0].get("items")] *)
Definition first_has_items (ps : list EatingPhase) : option EatingPhase :=
  match ps with
  | p :: _ => match items p with [] => None | _ => Some p end
  | [] => None
  end.

Definition goal_hint (goal : string) : string :=
  if String.eqb goal "fat_loss" then
    "Strategy favors high-protein, high-fiber, low-calorie-density items."
  else if String.eqb goal "muscle_gain" then
    "Strategy prioritizes protein and moderate carbs for recovery."
  else if String.eqb goal "blood_sugar" then
    "Strategy selects low-glycemic items and pairs carbs with fiber."
  else if String.eqb goal "enjoyment_first" then
    "Strategy balances satiety with variety for maximum enjoyment."
  else "".

Definition _generate_explanation (phases : list EatingPhase) (goal : string)
  (selected skip : list DishWithStomachImpact) : string :=
  let starter :=
    match first_has_items (filter (named "starter") phases) with
    | Some _ =>
        ["Start with soup or salad to fill volume cheaply (low calories, high satiety). "]
    | None => []
    end in
  let protein :=
    match first_has_items (filter (named "protein") phases) with
    | Some p =>
        [("Then prioritize protein (" ++ item_names p
           ++ ") for satiety and muscle support. ")%string]
    | None => []
    end in
  let carb :=
    flat_map
      (fun p =>
         match items p with
         | [] => []
         | _ => [("Add " ++ item_names p ++ " for energy and fiber. ")%string]
         end)
      (filter (fun p => named "carbs" p || named "vegetable" p) phases) in
  let treat :=
    match first_has_items (filter (named "treat") phases) with
    | Some _ =>
        ["Save dessert for last—your stomach will be fuller, so you'll eat less. "]
    | None => []
    end in
  let skipped :=
    match skip with
    | [] => []
    | _ =>
        [("Skip or minimize: "
           ++ Py.join ", " (map name_of (firstn 5 skip)) ++ ". ")%string]
    end in
  let hint :=
    match goal_hint goal with
    | EmptyString => []
    | g => [g]
    end in
  let parts := starter ++ protein ++ carb ++ treat ++ skipped ++ hint in
  match Py.strip (Py.join "" parts) with
  | EmptyString =>
      "Follow the phases in order for optimal satiety and nutrition."
  | text => text
  end.

Definition process (selected_dishes skip_dishes : list DishWithStomachImpact)
  (goal : string) (calorie_limit : Z) : strategy * string :=
  let groups := phase_groups selected_dishes in
  let stomach_capacity := settings.STOMACH_CAPACITY_ML in
  let '(phases, acc) :=
    plan_phases selected_dishes calorie_limit groups (mkTotals 0 0)
      (Py.sort_by (fun k => inject_Z (_phase_order k)) (map fst groups)) in
  let phases := Py.sort_by (fun p => inject_Z (phase_order p)) phases in
  let skip_list :=
    map (fun d =>
           mkSkip (name_of d)
             "Lower priority for goal or exceeded volume/calorie limit")
        skip_dishes in
  let fullness_score := Qmin 1 (stomach_used_ml acc / stomach_capacity) in
  let strategy :=
    mkStrategy (nth_error phases 0) (nth_error phases 1)
               (nth_error phases 2) (nth_error phases 3)
               (nth_error phases 4)
               phases skip_list
               (Py.round (total_calories acc) 1)
               (Py.round fullness_score 2)
               (Py.round (stomach_used_ml acc) 1) in
  (strategy, _generate_explanation phases goal selected_dishes skip_dishes).

End StrategyPlanningAgent.

(* ================================================================= *)
(** ** agents/pipeline.py *)

Module pipeline.

(** A manual dish dict: [name] is required, the other keys may be absent. *)
Record manual_dish : Type := mkManual {
  m_name : string;
  m_estimated_grams : option Q;
  m_cooking_method : option string
}.

Definition _detected_dish_from_manual (d : manual_dish) : DetectedDish :=
  mkDetectedDish
    (m_name d)
    0.9
    1
    (m_cooking_method d)
    None
    (match m_estimated_grams d with Some g => g | None => 100 end).

Record nutrition_summary : Type := mkNutritionSummary {
  total_available_calories : Q;
  total_protein_g : Q;
  total_fat_g : Q;
  total_carbs_g : Q;
  total_fiber_g : Q;
  total_glycemic_load : Q;
  dish_count : nat
}.

Definition _build_nutrition_summary (dishes : list DishWithNutrition)
  : nutrition_summary :=
  let scaled (f : NutritionalData -> Q) :=
    fold_left
      (fun total d =>
         total + f (nutrition_per_100g d)
                 * (estimated_grams (detected d) / 100))
      dishes 0 in
  mkNutritionSummary
    (Py.round (scaled calories) 1)
    (Py.round (scaled protein) 1)
    (Py.round (scaled fat) 1)
    (Py.round (scaled carbs) 1)
    (Py.round (scaled fiber) 1)
    (Py.round (scaled glycemic_load) 1)
    (List.length dishes).

Record stomach_simulation : Type := mkStomachSimulation {
  total_volume_ml : Q;
  selected_volume_ml : Q;
  capacity_ml : Q;
  avg_satiety_score : Q;
  digestion_fast : nat;
  digestion_medium : nat;
  digestion_slow : nat
}.

Definition count_speed (speed : string)
  (selected : list DishWithStomachImpact) : nat :=
  List.length
    (filter (fun d => String.eqb (digestion_speed (stomach_impact d)) speed)
            selected).

Definition _build_stomach_simulation
  (dishes selected : list DishWithStomachImpact) : stomach_simulation :=
  let total_vol := Py.sum (map (fun d => volume_ml (stomach_impact d)) dishes) in
  let selected_vol :=
    Py.sum (map (fun d => volume_ml (stomach_impact d)) selected) in
  let avg_satiety :=
    match selected with
    | [] => 0
    | _ =>
        Py.sum (map (fun d => satiety_score (stomach_impact d)) selected)
        / Py.len selected
    end in
  mkStomachSimulation
    (Py.round total_vol 1)
    (Py.round selected_vol 1)
    1350
    (Py.round avg_satiety 2)
    (count_speed "fast" selected)
    (count_speed "medium" selected)
    (count_speed "slow" selected).

(** The [strategy] value of a response: the planner's dict, or the short
    dict of [_empty_response] with no phases, no skips and zero totals. *)
Inductive strategy_dict : Type :=
| Planned (s : StrategyPlanningAgent.strategy)
| NoPlan.

(** The response dict. [None] in a summary stands for the empty dict. *)
Record response : Type := mkResponse {
  detected_dishes : list DetectedDish;
  r_nutrition_summary : option nutrition_summary;
  r_stomach_simulation : option stomach_simulation;
  r_strategy : strategy_dict;
  explanation : string;
  confidence_overall : Q
}.

Definition _empty_response (msg : string) : response :=
  mkResponse [] None None NoPlan msg 0.

Definition _run_rest_of_pipeline (h : HashOrder)
  (detected_dishes : list DetectedDish) (goal : string)
  (calorie_limit : option Z) (allergies dietary_filters : list string)
  : response :=
  match detected_dishes with
  | [] => _empty_response "No dishes detected."
  | _ =>
      let with_nutrition := NutritionAgent.process detected_dishes in
      let with_stomach := StomachPhysicsAgent.process with_nutrition in
      let opt :=
        GoalOptimizationAgent.__init__
          (Some (GoalOptimizationAgent.or_default calorie_limit))
          settings.STOMACH_CAPACITY_ML in
      let '(selected, skip) :=
        GoalOptimizationAgent.process opt h with_stomach goal
          (Some allergies) (Some dietary_filters) in
      let '(strategy, explanation) :=
        StrategyPlanningAgent.process selected skip goal
          (GoalOptimizationAgent.or_default calorie_limit) in
      let nutrition_summary := _build_nutrition_summary with_nutrition in
      let stomach_simulation :=
        _build_stomach_simulation with_stomach selected in
      let confidence :=
        Py.sum (map confidence detected_dishes) / Py.len detected_dishes in
      mkResponse detected_dishes
                 (Some nutrition_summary)
                 (Some stomach_simulation)
                 (Planned strategy)
                 explanation
                 (Py.round confidence 2)
  end.

(** [run_pipeline_manual]; [allergies or []] and [dietary_filters or []]
    turn a missing list into the empty one. *)
Definition run_pipeline_manual (h : HashOrder) (dishes : list manual_dish)
  (goal : string) (calorie_limit : option Z)
  (allergies dietary_filters : option (list string)) : response :=
  let detected := map _detected_dish_from_manual dishes in
  _run_rest_of_pipeline h detected goal calorie_limit
    (GoalOptimizationAgent.or_empty allergies)
    (GoalOptimizationAgent.or_empty dietary_filters).

End pipeline.

(* ================================================================= *)
(** ** api/routes/analyze.py *)

Module analyze.

(** [[a.strip() for a in field.split(",")] if field else []], the way
    [analyze_buffet] reads its two comma-separated form fields.  A field
    that was not sent is [None]. *)
Definition comma_list (field : option string) : list string :=
  match field with
  | None => []
  | Some text =>
      if Py.nonempty text then map Py.strip (Py.split "," text) else []
  end.

(** [analyze_buffet] after the image is read, with the dishes that the
    vision agent returns for it as an argument. *)
Definition analyze_buffet (h : HashOrder) (detected : list DetectedDish)
  (goal : string) (calorie_limit : option Z)
  (allergies dietary_filters : option string) : pipeline.response :=
  pipeline._run_rest_of_pipeline h detected goal calorie_limit
    (GoalOptimizationAgent.or_empty (Some (comma_list allergies)))
    (GoalOptimizationAgent.or_empty (Some (comma_list dietary_filters))).

End analyze.

(* ================================================================= *)
(** ** streamlit_frontend/app.py *)

Module frontend.

(** [[s.strip() for s in (text or "").split(",") if s.strip()]] *)
Definition _split_csv (text : option string) : list string :=
  let text := match text with Some t => t | None => EmptyString end in
  map Py.strip
      (filter (fun s => Py.nonempty (Py.strip s)) (Py.split "," text)).

(** The form field that [analyze_image] sends for a list: the key is set
    only [if items], to [", ".join(items)]. *)
Definition form_field (items : list string) : option string :=
  match items with
  | [] => None
  | _ => Some (Py.join ", " items)
  end.

End frontend.

(* ================================================================= *)
(** * Sample inputs and the readings of the specification *)

(** A dish as it reaches the Allocator: detected with confidence 0.9 and
    density 1, then enriched by the two earlier stages. *)
Definition detect (dish_name : string) (grams : Q) : DetectedDish :=
  mkDetectedDish dish_name 0.9 1 None None grams.

Definition enrich (dish_name : string) (grams : Q) : DishWithStomachImpact :=
  StomachPhysicsAgent.process_one
    (NutritionAgent.process_one (detect dish_name grams)).

(** An Allocator with a budget of 100 kcal and the configured capacity, and
    two dishes for it: under [muscle_gain] the steak scores higher and comes
    first, but only the salad is within the budget. *)
Definition tight_agent : GoalOptimizationAgent.t :=
  GoalOptimizationAgent.__init__ (Some 100%Z) settings.STOMACH_CAPACITY_ML.

Definition steak_and_salad : list DishWithStomachImpact :=
  [enrich "Mixed Salad" 100; enrich "Steak" 100].

(** The same cake twice, for an Allocator with a budget of 400 kcal: one cake
    of 100 g has 350 kcal. *)
Definition cake_agent : GoalOptimizationAgent.t :=
  GoalOptimizationAgent.__init__ (Some 400%Z) settings.STOMACH_CAPACITY_ML.

Definition two_cakes : list pipeline.manual_dish :=
  [pipeline.mkManual "Cake" None None; pipeline.mkManual "Cake" None None].

(** Partition, as the specification words it: every entry of the filtered
    input is in exactly one of the two outputs. *)
Definition partitions (input selected skip : list DishWithStomachImpact)
  : Prop :=
  Permutation (selected ++ skip) input.

(** No entry of [l] is equal to another one. *)
Definition no_equal_dishes (l : list DishWithStomachImpact) : Prop :=
  NoDup l
  /\ forall x y, In x l -> In y l -> dish_eqb x y = true -> x = y.

(** Greedy selection, as the specification words it: once an item of the
    sorted order is not accepted, no item after it is added to [selected]. *)
Definition nothing_taken_after_a_reject (self : GoalOptimizationAgent.t)
  (h : HashOrder) (dishes : list DishWithStomachImpact) (goal : string)
  (allergies dietary_filters : option (list string)) : Prop :=
  let input := GoalOptimizationAgent.filtered h dishes allergies dietary_filters in
  let selected :=
    fst (GoalOptimizationAgent.process self h dishes goal allergies
           dietary_filters) in
  forall pre x post,
    map snd (GoalOptimizationAgent.scored input goal) = pre ++ x :: post ->
    dish_in x selected = false ->
    forall y, In y post -> dish_in y selected = false.

(** The two bounds of the Allocator, as the specification words them, for
    one Allocator and one input: the calories of the selected items sum to at
    most the calorie budget and their volumes to at most capacity times
    1.10. *)
Definition within_budgets (self : GoalOptimizationAgent.t)
  (h : HashOrder) (dishes : list DishWithStomachImpact) (goal : string)
  (allergies dietary_filters : option (list string)) : Prop :=
  let selected :=
    fst (GoalOptimizationAgent.process self h dishes goal allergies
           dietary_filters) in
  Py.sum (map GoalOptimizationAgent.cal_of selected)
  <= inject_Z (GoalOptimizationAgent.calorie_limit self)
  /\ Py.sum (map GoalOptimizationAgent.vol_of selected)
     <= GoalOptimizationAgent.stomach_capacity_ml self * 1.1.

(** An Allocator with a calorie limit of -5, a value that the request model
    admits ([calorie_limit: Optional[int]]) and that [calorie_limit or
    settings.DEFAULT_CALORIE_LIMIT] keeps, since -5 is truthy. *)
Definition negative_budget_agent : GoalOptimizationAgent.t :=
  GoalOptimizationAgent.__init__ (Some (-5)%Z) settings.STOMACH_CAPACITY_ML.

(** The running totals are the sums over [selected], and after an
    acceptance both are within their bounds. *)
Definition loop_invariant (self : GoalOptimizationAgent.t)
  (st : GoalOptimizationAgent.loop_state) : Prop :=
  GoalOptimizationAgent.total_cal st == Py.sum (map GoalOptimizationAgent.cal_of (GoalOptimizationAgent.selected st))
  /\ GoalOptimizationAgent.total_vol st == Py.sum (map GoalOptimizationAgent.vol_of (GoalOptimizationAgent.selected st))
  /\ (GoalOptimizationAgent.selected st = []
      \/ (GoalOptimizationAgent.total_cal st <= inject_Z (GoalOptimizationAgent.calorie_limit self)
          /\ GoalOptimizationAgent.total_vol st <= GoalOptimizationAgent.stomach_capacity_ml self * 1.1)).

(** The five phase names of the Planner, in serving order. *)
Definition phase_names : list string :=
  ["starter"; "protein"; "vegetables"; "carbs"; "treats"].

(** [item] is what the Planner makes of [dish], for some running totals. *)
Definition planned_from (selected_dishes : list DishWithStomachImpact)
  (calorie_limit : Z) (item : PhaseItem.t) (dish : DishWithStomachImpact)
  : Prop :=
  exists acc,
    item = fst (StrategyPlanningAgent.plan_dish selected_dishes calorie_limit
                  acc dish).

(** [p] is the phase the Planner builds for the group named [k]. *)
Definition phase_for (selected_dishes : list DishWithStomachImpact)
  (calorie_limit : Z)
  (groups : list (string * list DishWithStomachImpact))
  (p : EatingPhase) (k : string) : Prop :=
  phase_name p = Py.title (Py.replace_char "_" " " k)
  /\ phase_order p = StrategyPlanningAgent._phase_order k
  /\ Forall2 (planned_from selected_dishes calorie_limit) (items p)
             (StrategyPlanningAgent.group_of groups k).

(** The dishes of [selected_dishes] that are classified into phase [k]. *)
Definition classified (k : string)
  (selected_dishes : list DishWithStomachImpact)
  : list DishWithStomachImpact :=
  filter (fun d => String.eqb k (StrategyPlanningAgent._classify_phase d))
         selected_dishes.



(** A manual request: grilled chicken and rice. *)
Definition chicken_and_rice : list pipeline.manual_dish :=
  [pipeline.mkManual "Grilled Chicken" (Some 150) None;
   pipeline.mkManual "Rice" (Some 120) None].

(** Allergen handling, as the specification words it: a dish whose name
    contains an allergen keyword is in no phase of the plan and is listed in
    its skip list. *)
Definition allergen_items_listed_as_skipped (h : HashOrder)
  (dishes : list pipeline.manual_dish) (goal : string)
  (calorie_limit : option Z) (allergies : list string)
  (dietary_filters : option (list string)) : Prop :=
  forall m a,
    In m dishes -> In a allergies ->
    Py.contains (Py.lower a) (Py.lower (pipeline.m_name m)) = true ->
    match pipeline.r_strategy
            (pipeline.run_pipeline_manual h dishes goal calorie_limit
               (Some allergies) dietary_filters) with
    | pipeline.Planned s =>
        (forall p, In p (StrategyPlanningAgent.phases s) ->
                   ~ In (pipeline.m_name m)
                        (map PhaseItem.dish_name (items p)))
        /\ In (pipeline.m_name m)
              (map StrategyPlanningAgent.skip_name
                   (StrategyPlanningAgent.skip s))
    | pipeline.NoPlan => True
    end.

(** The three ways a name is matched against the table, (a), (b) and (c) of
    the specification, told apart the way [_lookup] does. *)
Inductive match_tier : Type :=
| ExactKey
| SubstringMatch
| FallbackDefault.

Definition lookup_tier (dish_name : string) : match_tier :=
  let name_lower := Py.strip (Py.lower dish_name) in
  match NutritionAgent.dict_get NutritionAgent._db name_lower with
  | Some _ => ExactKey
  | None =>
      match NutritionAgent.partial_match NutritionAgent._db name_lower with
      | Some _ => SubstringMatch
      | None => FallbackDefault
      end
  end.

(** The confidence that the NutritionEnricher attaches to a dish. *)
Definition enriched_confidence (d : DetectedDish) : Q :=
  nutrition_confidence (nutrition_per_100g (NutritionAgent.process_one d)).

(** Confidence, as the specification words it: 0.9 for an exact key, 0.7 for
    a substring match and a third, low value for the fallback profile. *)
Definition three_confidence_tiers : Prop :=
  exists low : Q,
    ~ low == 0.9 /\ ~ low == 0.7
    /\ forall d,
         enriched_confidence d
         == match lookup_tier (name d) with
            | ExactKey => 0.9
            | SubstringMatch => 0.7
            | FallbackDefault => low
            end.

(** The other iteration order used in the examples: both literals backwards. *)
Definition reversed_order : HashOrder :=
  mkHashOrder (rev non_vegan_literal) (rev non_veg_literal).

(** A row of the nutrition table with positive calories and no negative
    value. *)
Definition entry_ok (e : NutritionAgent.entry) : bool :=
  Py.Qlt_bool 0 (Py.value (NutritionAgent.cal e))
  && Qle_bool 0 (Py.value (NutritionAgent.e_protein e))
  && Qle_bool 0 (Py.value (NutritionAgent.e_fat e))
  && Qle_bool 0 (Py.value (NutritionAgent.e_carbs e))
  && Qle_bool 0 (Py.value (NutritionAgent.e_fiber e))
  && Qle_bool 0 (Py.value (NutritionAgent.gl e)).

(** No string of [l] occurs twice. *)
Fixpoint distinct (l : list string) : bool :=
  match l with
  | [] => true
  | x :: r => negb (Py.str_in x r) && distinct r
  end.


(** The reward that the Allocator sorts by. *)
Definition reward_ge (goal : string) (a b : DishWithStomachImpact) : Prop :=
  GoalOptimizationAgent._goal_reward b goal
  <= GoalOptimizationAgent._goal_reward a goal.

(** The display names of the five phases with their order indices. *)
Definition phase_titles : list (string * Z) :=
  [("Starter", 1%Z); ("Protein", 2%Z); ("Vegetables", 3%Z); ("Carbs", 4%Z);
   ("Treats", 5%Z)].

(** A dish with a volume and a mass that are not negative. *)
Definition nonneg_dish (d : DishWithStomachImpact) : Prop :=
  0 <= volume_ml (stomach_impact d) /\ 0 <= grams_of d.


(** One of the budgets of [_compute_portion] is used up for [dish]. *)
Definition budget_used_up (dish : DishWithStomachImpact)
  (calorie_budget_remaining stomach_remaining_ml : Q) : Prop :=
  (0 < calories (nutrition_of dish) /\ calorie_budget_remaining <= 0)
  \/ (0 < grams_of dish /\ 0 < volume_ml (stomach_impact dish)
      /\ stomach_remaining_ml <= 0).

(** The items of a plan, phase after phase. *)
Definition plan_items (s : StrategyPlanningAgent.strategy)
  : list PhaseItem.t :=
  flat_map items (StrategyPlanningAgent.phases s).

(** What [stomach_used_ml] grows by for one item. *)
Definition item_ml (item : PhaseItem.t) : Q :=
  StrategyPlanningAgent.ml_or (PhaseItem.portion_ml item)
                              (PhaseItem.portion_grams item).

(* ================================================================= *)
(** * Properties *)

(** ** Numbers *)

Lemma Qlt_bool_iff (a b : Q) : Py.Qlt_bool a b = true <-> a < b.
Proof.
  unfold Py.Qlt_bool. rewrite negb_true_iff. split; intro H.
  - apply Qnot_le_lt. intro Hle. apply Qle_bool_iff in Hle. congruence.
  - destruct (Qle_bool b a) eqn:E; [|reflexivity].
    apply Qle_bool_iff in E. exfalso. apply (Qlt_not_le _ _ H E).
Qed.

Lemma sum_from (xs : list Q) (a : Q) : fold_left Qplus xs a == a + Py.sum xs.
Proof.
  unfold Py.sum. revert a. induction xs as [|x xs IH]; intro a; simpl.
  - lra.
  - rewrite (IH (0 + x)), (IH (a + x)). lra.
Qed.

Lemma sum_snoc (xs : list Q) (x : Q) : Py.sum (xs ++ [x]) = Py.sum xs + x.
Proof. unfold Py.sum. rewrite fold_left_app. reflexivity. Qed.

Lemma sum_cons (xs : list Q) (x : Q) : Py.sum (x :: xs) == x + Py.sum xs.
Proof. unfold Py.sum at 1. simpl. rewrite sum_from. lra. Qed.

Lemma pow10_pos (n : nat) : 0 < Py.pow10 n.
Proof.
  unfold Py.pow10. replace 0 with (inject_Z 0) by reflexivity.
  rewrite <- Zlt_Qlt. apply Z.pow_pos_nonneg; lia.
Qed.

(** The rounded integer is within one half of the argument. *)
Lemma round_half_even_near (x : Q) :
  x - (1 # 2) <= inject_Z (Py.round_half_even x)
  /\ inject_Z (Py.round_half_even x) <= x + (1 # 2).
Proof.
  unfold Py.round_half_even.
  pose proof (Qfloor_le x) as Hlo. pose proof (Qlt_floor x) as Hhi.
  rewrite inject_Z_plus in Hhi. change (inject_Z 1) with 1 in Hhi.
  destruct (Qcompare_spec (x - inject_Z (Qfloor x)) (1 # 2)) as [E|E|E].
  - destruct (Z.even (Qfloor x)).
    + split; lra.
    + rewrite inject_Z_plus. change (inject_Z 1) with 1. split; lra.
  - split; lra.
  - rewrite inject_Z_plus. change (inject_Z 1) with 1. split; lra.
Qed.

Lemma round_half_even_compat : Proper (Qeq ==> eq) Py.round_half_even.
Proof.
  intros x y E. unfold Py.round_half_even.
  rewrite (Qfloor_comp _ _ E).
  assert (E2 : x - inject_Z (Qfloor y) == y - inject_Z (Qfloor y))
    by (rewrite E; reflexivity).
  rewrite (Qcompare_comp _ _ E2 (1#2) (1#2) (Qeq_refl _)). reflexivity.
Qed.

Lemma round_half_even_mono (x y : Q) :
  x <= y -> (Py.round_half_even x <= Py.round_half_even y)%Z.
Proof.
  intro H. destruct (Qle_lt_or_eq _ _ H) as [Hlt|Heq].
  - destruct (round_half_even_near x) as [_ Hx].
    destruct (round_half_even_near y) as [Hy _].
    assert (Hq : inject_Z (Py.round_half_even x)
                 < inject_Z (Py.round_half_even y + 1)).
    { rewrite inject_Z_plus. change (inject_Z 1) with 1. lra. }
    rewrite <- Zlt_Qlt in Hq. lia.
  - rewrite (round_half_even_compat _ _ Heq). lia.
Qed.

Lemma round_half_even_int (z : Z) : Py.round_half_even (inject_Z z) = z.
Proof.
  destruct (round_half_even_near (inject_Z z)) as [Hlo Hhi].
  assert (H1 : inject_Z (z - 1) < inject_Z (Py.round_half_even (inject_Z z))).
  { unfold Zminus. rewrite inject_Z_plus. change (inject_Z (- (1))%Z) with (- (1)). lra. }
  assert (H2 : inject_Z (Py.round_half_even (inject_Z z)) < inject_Z (z + 1)).
  { rewrite inject_Z_plus. change (inject_Z 1) with 1. lra. }
  rewrite <- Zlt_Qlt in H1, H2. lia.
Qed.

Lemma round_compat : Proper (Qeq ==> eq ==> Qeq) Py.round.
Proof.
  intros x y E n m <-. unfold Py.round.
  assert (E2 : x * Py.pow10 n == y * Py.pow10 n) by (rewrite E; reflexivity).
  rewrite (round_half_even_compat _ _ E2). reflexivity.
Qed.

Lemma round_mono (x y : Q) (n : nat) : x <= y -> Py.round x n <= Py.round y n.
Proof.
  intro H. unfold Py.round. pose proof (pow10_pos n) as Hp.
  apply Qmult_le_compat_r.
  - rewrite <- Zle_Qle. apply round_half_even_mono.
    apply Qmult_le_compat_r; lra.
  - apply Qlt_le_weak, Qinv_lt_0_compat, Hp.
Qed.

Lemma round_int (z : Z) : Py.round (inject_Z z) 0 == inject_Z z.
Proof.
  unfold Py.round. change (Py.pow10 0) with 1.
  assert (E : inject_Z z * 1 == inject_Z z) by lra.
  rewrite (round_half_even_compat _ _ E), round_half_even_int. field.
Qed.

Lemma round_nonneg (x : Q) (n : nat) : 0 <= x -> 0 <= Py.round x n.
Proof.
  intro H. pose proof (round_mono 0 x n H) as Hm.
  assert (E : Py.round 0 n == 0).
    { unfold Py.round.
    assert (E0 : 0 * Py.pow10 n == inject_Z 0)
      by (change (inject_Z 0) with 0; ring).
    rewrite (round_half_even_compat _ _ E0), round_half_even_int.
    pose proof (pow10_pos n). change (inject_Z 0) with 0. field. lra. }
  lra.
Qed.

(** ** StomachModel: the satiety score *)

(** C8. For every item the satiety score of [_satiety_score] is
    [protein*2.0 + fiber*3.0 + (100 / max(calories,10))*100 - fat*0.5],
    floored at 0.  It is never negative, and neither is the value that
    [process] stores on the item after rounding it to two decimals. *)
Theorem satiety_score_formula (dish : DishWithNutrition) :
  let n := nutrition_per_100g dish in
  StomachPhysicsAgent._satiety_score dish
  == Qmax 0 (protein n * 2.0 + fiber n * 3.0
             + (100 / Qmax (calories n) 10) * 100 - fat n * 0.5)
  /\ 0 <= StomachPhysicsAgent._satiety_score dish
  /\ 0 <= satiety_score (stomach_impact (StomachPhysicsAgent.process_one dish)).
Proof.
  intro n.
  assert (Hcal : 10 <= Qmax (calories n) 10) by apply Q.le_max_r.
  assert (Hguard : Py.Qlt_bool 0 (Qmax (calories n) 10) = true)
    by (apply Qlt_bool_iff; lra).
  assert (Hnonneg : 0 <= StomachPhysicsAgent._satiety_score dish)
    by (unfold StomachPhysicsAgent._satiety_score; apply Q.le_max_l).
  split; [|split].
  - unfold StomachPhysicsAgent._satiety_score. fold n. rewrite Hguard.
    apply Q.max_compat; [reflexivity|].
    field. lra.
  - exact Hnonneg.
  - simpl. apply round_nonneg, Hnonneg.
Qed.

(** ** Orchestrator: confidence of manual input *)

Lemma sum_constant (c : Q) (xs : list Q) :
  Forall (fun x => x == c) xs -> Py.sum xs == c * Py.len xs.
Proof.
  induction 1 as [|x xs Hx _ IH].
  - unfold Py.sum, Py.len. simpl. ring.
  - cbv beta in Hx. rewrite sum_cons, IH.
    transitivity (c + c * Py.len xs);
      [apply Qplus_comp; [exact Hx | reflexivity]|].
    unfold Py.len. simpl List.length.
    rewrite Nat2Z.inj_succ. unfold Z.succ. rewrite inject_Z_plus.
    change (inject_Z 1) with 1. ring.
Qed.

Lemma len_map {A B : Type} (f : A -> B) (xs : list A) :
  Py.len (map f xs) = Py.len xs.
Proof. unfold Py.len. rewrite length_map. reflexivity. Qed.

Lemma len_pos {A : Type} (xs : list A) : xs <> [] -> 0 < Py.len xs.
Proof.
  intro H. destruct xs as [|x xs]; [congruence|].
  unfold Py.len. simpl List.length. change 0 with (inject_Z 0).
  rewrite <- Zlt_Qlt. lia.
Qed.

Lemma confidence_overall_unfold (h : HashOrder) (detected : list DetectedDish)
  (goal : string) (calorie_limit : option Z)
  (allergies dietary_filters : list string) :
  detected <> [] ->
  pipeline.confidence_overall
    (pipeline._run_rest_of_pipeline h detected goal calorie_limit
       allergies dietary_filters)
  = Py.round (Py.sum (map confidence detected) / Py.len detected) 2.
Proof.
  intro Hne. unfold pipeline._run_rest_of_pipeline.
  destruct detected as [|d ds]; [congruence|].
  destruct (GoalOptimizationAgent.process _ _ _ _ _ _) as [sel skp].
  destruct (StrategyPlanningAgent.process _ _ _ _) as [st ex].
  reflexivity.
Qed.

(** C10. Every manually entered dish gets detection confidence 0.9, and
    an estimated mass of 100 g when none is given; for a non-empty manual
    list the response's [confidence_overall] is therefore 0.9. *)
Theorem manual_confidence_overall (h : HashOrder)
  (dishes : list pipeline.manual_dish) (goal : string)
  (calorie_limit : option Z) (allergies dietary_filters : option (list string)) :
  dishes <> [] ->
  Forall (fun m =>
            confidence (pipeline._detected_dish_from_manual m) = 0.9
            /\ (pipeline.m_estimated_grams m = None ->
                estimated_grams (pipeline._detected_dish_from_manual m) = 100))
         dishes
  /\ pipeline.confidence_overall
       (pipeline.run_pipeline_manual h dishes goal calorie_limit
          allergies dietary_filters)
     == 0.9.
Proof.
  intro Hne. split.
  - apply Forall_forall. intros m _. split; [reflexivity|].
    intro Hnone. unfold pipeline._detected_dish_from_manual. simpl.
    rewrite Hnone. reflexivity.
  - unfold pipeline.run_pipeline_manual.
    assert (Hdet : map pipeline._detected_dish_from_manual dishes <> [])
      by (destruct dishes; simpl; congruence).
    rewrite (confidence_overall_unfold _ _ _ _ _ _ Hdet).
    assert (Hsum : Py.sum (map confidence
                             (map pipeline._detected_dish_from_manual dishes))
                   == 0.9 * Py.len (map pipeline._detected_dish_from_manual dishes)).
    { rewrite <- (len_map confidence).
      apply sum_constant. apply Forall_forall. intros x Hx.
      apply in_map_iff in Hx. destruct Hx as [d [<- Hd]].
      apply in_map_iff in Hd. destruct Hd as [m [<- _]]. reflexivity. }
    pose proof (len_pos _ Hdet) as Hpos.
    assert (Hmean : Py.sum (map confidence
                              (map pipeline._detected_dish_from_manual dishes))
                    / Py.len (map pipeline._detected_dish_from_manual dishes)
                    == 0.9).
    { rewrite Hsum. field. lra. }
    rewrite (round_compat _ _ Hmean 2%nat 2%nat eq_refl).
    vm_compute. reflexivity.
Qed.

(** ** Stable sorting by a key *)

Section SortFacts.
Context {A : Type} (key : A -> Q).

Lemma insert_by_perm (x : A) (l : list A) :
  Permutation (Py.insert_by key x l) (x :: l).
Proof.
  induction l as [|y r IH]; simpl.
  - apply Permutation_refl.
  - destruct (Qle_bool (key x) (key y)).
    + apply Permutation_refl.
    + eapply perm_trans; [apply perm_skip, IH | apply perm_swap].
Qed.

Lemma sort_by_perm (l : list A) : Permutation (Py.sort_by key l) l.
Proof.
  induction l as [|x l IH]; simpl.
  - apply perm_nil.
  - eapply perm_trans; [apply insert_by_perm | apply perm_skip, IH].
Qed.

Lemma insert_by_sorted (x : A) (l : list A) :
  StronglySorted (Py.key_le key) l -> StronglySorted (Py.key_le key) (Py.insert_by key x l).
Proof.
  induction 1 as [|y r Hr IH Hy]; simpl.
  - constructor; constructor.
  - destruct (Qle_bool (key x) (key y)) eqn:E.
    + apply Qle_bool_iff in E. constructor.
      * constructor; assumption.
      * constructor; [exact E|].
        eapply Forall_impl; [|exact Hy].
        intros z Hz. unfold Py.key_le in *. lra.
    + constructor; [exact IH|].
      assert (Hyx : Py.key_le key y x).
      { unfold Py.key_le. destruct (Qlt_le_dec (key y) (key x)) as [Hlt|Hle].
        - lra.
        - apply Qle_bool_iff in Hle. congruence. }
      apply Forall_forall. intros z Hz.
      apply (Permutation_in _ (insert_by_perm x r)) in Hz.
      destruct Hz as [<-|Hz]; [exact Hyx|].
      rewrite Forall_forall in Hy. apply Hy, Hz.
Qed.

Lemma sort_by_sorted (l : list A) : StronglySorted (Py.key_le key) (Py.sort_by key l).
Proof.
  induction l as [|x l IH]; simpl.
  - constructor.
  - apply insert_by_sorted, IH.
Qed.

(** Sorting a list that is already in order leaves it as it is. *)
Lemma sort_by_of_sorted (l : list A) :
  StronglySorted (Py.key_le key) l -> Py.sort_by key l = l.
Proof.
  induction 1 as [|x r Hr IH Hx]; simpl.
  - reflexivity.
  - rewrite IH. destruct r as [|y r']; [reflexivity|]. simpl.
    inversion Hx as [|? ? Hxy _]; subst.
    apply Qle_bool_iff in Hxy. rewrite Hxy. reflexivity.
Qed.
End SortFacts.

(** ** Equality of dishes *)

Lemma opt_str_eqb_refl (a : option string) : opt_str_eqb a a = true.
Proof. destruct a; simpl; [apply String.eqb_refl | reflexivity]. Qed.

Lemma opt_str_eqb_eq (a b : option string) : opt_str_eqb a b = true -> a = b.
Proof.
  destruct a, b; simpl; try congruence.
  intro H. apply String.eqb_eq in H. congruence.
Qed.

Ltac split_andb :=
  repeat match goal with
    | H : _ && _ = true |- _ => apply andb_true_iff in H; destruct H
    | |- _ && _ = true => apply andb_true_iff; split
    end.

Lemma dish_eqb_refl (a : DishWithStomachImpact) : dish_eqb a a = true.
Proof.
  unfold dish_eqb, detected_eqb, nutrition_eqb, impact_eqb.
  split_andb;
    auto using Qeq_bool_refl, String.eqb_refl, opt_str_eqb_refl.
Qed.

Lemma dish_eqb_sym (a b : DishWithStomachImpact) :
  dish_eqb a b = true -> dish_eqb b a = true.
Proof.
  unfold dish_eqb, detected_eqb, nutrition_eqb, impact_eqb. intro H.
  split_andb;
    try (apply Qeq_bool_sym; assumption);
    try (rewrite String.eqb_sym; assumption);
    match goal with
    | H : opt_str_eqb _ _ = true |- _ =>
        apply opt_str_eqb_eq in H; rewrite H; apply opt_str_eqb_refl
    end.
Qed.

Lemma str_eqb_trans (a b c : string) :
  String.eqb a b = true -> String.eqb b c = true -> String.eqb a c = true.
Proof. rewrite !String.eqb_eq. congruence. Qed.

Lemma opt_str_eqb_trans (a b c : option string) :
  opt_str_eqb a b = true -> opt_str_eqb b c = true -> opt_str_eqb a c = true.
Proof.
  intros H1 H2. apply opt_str_eqb_eq in H1, H2. subst. apply opt_str_eqb_refl.
Qed.

Lemma dish_eqb_trans (a b c : DishWithStomachImpact) :
  dish_eqb a b = true -> dish_eqb b c = true -> dish_eqb a c = true.
Proof.
  unfold dish_eqb, detected_eqb, nutrition_eqb, impact_eqb. intros H1 H2.
  split_andb;
    first [ eapply Qeq_bool_trans; eassumption
          | eapply str_eqb_trans; eassumption
          | eapply opt_str_eqb_trans; eassumption ].
Qed.

(** ** Allocator: the selection loop *)

Import GoalOptimizationAgent.

Lemma dish_in_iff (d : DishWithStomachImpact) (ds : list DishWithStomachImpact) :
  dish_in d ds = true <-> exists x, In x ds /\ dish_eqb d x = true.
Proof. unfold dish_in. apply existsb_exists. Qed.

Lemma loop_app (self : t) (l1 l2 : list (Q * DishWithStomachImpact))
  (st : loop_state) :
  loop self (l1 ++ l2) st = loop self l2 (loop self l1 st).
Proof. unfold loop. apply fold_left_app. Qed.

Lemma loop_cons (self : t) (x : Q * DishWithStomachImpact)
  (l : list (Q * DishWithStomachImpact)) (st : loop_state) :
  loop self (x :: l) st = loop self l (step self st x).
Proof. reflexivity. Qed.

(** The loop only adds, and only dishes it was given. *)
Lemma loop_selected (self : t) (sc : list (Q * DishWithStomachImpact))
  (st : loop_state) :
  exists added,
    selected (loop self sc st) = selected st ++ added
    /\ incl added (map snd sc).
Proof.
  revert st. induction sc as [|x sc IH]; intro st.
  - exists []. split; [symmetry; apply app_nil_r | apply incl_nil_l].
  - rewrite loop_cons. destruct (IH (step self st x)) as [added [E Hin]].
    unfold step in E at 2. destruct (fits self st (snd x)); simpl in E.
    + exists (snd x :: added). split.
      * rewrite E, <- app_assoc. reflexivity.
      * simpl. apply incl_cons; [left; reflexivity | apply incl_tl, Hin].
    + exists added. split; [exact E | apply incl_tl, Hin].
Qed.

Lemma scored_perm (dishes : list DishWithStomachImpact) (goal : string) :
  Permutation (map snd (scored dishes goal)) dishes.
Proof.
  unfold scored.
  eapply perm_trans; [apply Permutation_map, sort_by_perm|].
  rewrite map_map. simpl. rewrite map_id. apply Permutation_refl.
Qed.

Lemma step_invariant (self : t) (st : loop_state)
  (x : Q * DishWithStomachImpact) :
  loop_invariant self st -> loop_invariant self (step self st x).
Proof.
  intros [Hc [Hv Hb]]. unfold step.
  destruct (fits self st (snd x)) eqn:E; [|repeat split; assumption].
  unfold fits in E. apply andb_true_iff in E. destruct E as [E1 E2].
  apply Qle_bool_iff in E1, E2.
  unfold loop_invariant. simpl. rewrite !map_app. simpl. rewrite !sum_snoc.
  repeat split.
  - rewrite Hc. reflexivity.
  - rewrite Hv. reflexivity.
  - right. split; assumption.
Qed.

Lemma loop_keeps_invariant (self : t) (sc : list (Q * DishWithStomachImpact))
  (st : loop_state) :
  loop_invariant self st -> loop_invariant self (loop self sc st).
Proof.
  revert st. induction sc as [|x sc IH]; intros st H; [exact H|].
  rewrite loop_cons. apply IH, step_invariant, H.
Qed.

Lemma init_invariant (self : t) : loop_invariant self init.
Proof. repeat split; try reflexivity. left. reflexivity. Qed.

Lemma process_selected (self : t) (h : HashOrder)
  (dishes : list DishWithStomachImpact) (goal : string)
  (allergies dietary_filters : option (list string)) :
  fst (process self h dishes goal allergies dietary_filters)
  = selected (loop self (scored (filtered h dishes allergies dietary_filters)
                                goal) init).
Proof.
  unfold process. destruct (filtered h dishes allergies dietary_filters);
    reflexivity.
Qed.

Lemma process_skip (self : t) (h : HashOrder)
  (dishes : list DishWithStomachImpact) (goal : string)
  (allergies dietary_filters : option (list string)) :
  snd (process self h dishes goal allergies dietary_filters)
  = filter (fun d => negb (dish_in d
                             (fst (process self h dishes goal allergies
                                     dietary_filters))))
           (filtered h dishes allergies dietary_filters).
Proof.
  unfold process. destruct (filtered h dishes allergies dietary_filters);
    reflexivity.
Qed.

Lemma selected_incl_filtered (self : t) (h : HashOrder)
  (dishes : list DishWithStomachImpact) (goal : string)
  (allergies dietary_filters : option (list string)) :
  incl (fst (process self h dishes goal allergies dietary_filters))
       (filtered h dishes allergies dietary_filters).
Proof.
  rewrite process_selected. intros d Hd.
  destruct (loop_selected self
              (scored (filtered h dishes allergies dietary_filters) goal) init)
    as [added [E Hin]].
  rewrite E in Hd. simpl in Hd.
  apply (Permutation_in _ (scored_perm _ goal)). apply Hin, Hd.
Qed.

Lemma skip_incl_filtered (self : t) (h : HashOrder)
  (dishes : list DishWithStomachImpact) (goal : string)
  (allergies dietary_filters : option (list string)) :
  incl (snd (process self h dishes goal allergies dietary_filters))
       (filtered h dishes allergies dietary_filters).
Proof.
  rewrite process_skip. intros d Hd. apply filter_In in Hd. apply Hd.
Qed.

(** With a calorie limit of -5 neither the steak nor the salad is within the
    budget, so nothing is selected. *)
Lemma negative_budget_selects_nothing :
  fst (GoalOptimizationAgent.process negative_budget_agent written_order
         steak_and_salad "muscle_gain" None None) = [].
Proof. vm_compute. reflexivity. Qed.

(** C6, as stated for every calorie budget, fails: with a calorie limit of
    -5 nothing is selected, and the calories of the selected items, 0, are
    above the budget. *)
Lemma negative_budget_exceeded :
  ~ within_budgets negative_budget_agent written_order steak_and_salad
      "muscle_gain" None None.
Proof.
  unfold within_budgets. cbv zeta. rewrite negative_budget_selects_nothing.
  intros [Hcal _]. vm_compute in Hcal. apply Hcal. reflexivity.
Qed.

(** C6, amended. For a calorie budget and a capacity that are not negative,
    the calories of the selected items (per-100g calories times mass/100)
    sum to at most the budget and their volumes to at most capacity times
    1.10. *)
Theorem selected_within_bounds (self : GoalOptimizationAgent.t)
  (h : HashOrder) (dishes : list DishWithStomachImpact) (goal : string)
  (allergies dietary_filters : option (list string)) :
  0 <= inject_Z (calorie_limit self) ->
  0 <= stomach_capacity_ml self ->
  let selected :=
    fst (GoalOptimizationAgent.process self h dishes goal allergies
           dietary_filters) in
  Py.sum (map cal_of selected) <= inject_Z (calorie_limit self)
  /\ Py.sum (map vol_of selected) <= stomach_capacity_ml self * 1.1.
Proof.
  intros Hbudget Hcap sel. subst sel. rewrite process_selected.
  destruct (loop_keeps_invariant self
              (scored (filtered h dishes allergies dietary_filters) goal)
              init (init_invariant self)) as [Hc [Hv Hb]].
  destruct Hb as [Hnil|[Hb1 Hb2]].
  - rewrite Hnil. unfold Py.sum. simpl. split; lra.
  - rewrite <- Hc, <- Hv. split; assumption.
Qed.

(** By value the two outputs always partition the filtered input: no dish is
    in both [selected] and [skip], and a dish is in the filtered input
    exactly when it is in one of them, where "in" is Python's [in].  Both
    outputs are made of dishes of the input. *)
Lemma partition_by_value (self : GoalOptimizationAgent.t) (h : HashOrder)
  (dishes : list DishWithStomachImpact) (goal : string)
  (allergies dietary_filters : option (list string)) :
  let input := filtered h dishes allergies dietary_filters in
  let selected :=
    fst (GoalOptimizationAgent.process self h dishes goal allergies
           dietary_filters) in
  let skip :=
    snd (GoalOptimizationAgent.process self h dishes goal allergies
           dietary_filters) in
  (forall d, ~ (dish_in d selected = true /\ dish_in d skip = true))
  /\ (forall d, dish_in d input = true
                <-> (dish_in d selected = true \/ dish_in d skip = true))
  /\ incl selected input
  /\ incl skip input.
Proof.
  intros input sel skp.
  pose proof (selected_incl_filtered self h dishes goal allergies
                dietary_filters) as Hsel.
  pose proof (skip_incl_filtered self h dishes goal allergies
                dietary_filters) as Hskp.
  fold input sel in Hsel. fold input skp in Hskp.
  assert (Hskip : forall x, In x skp <-> In x input /\ dish_in x sel = false).
  { intro x. unfold skp. rewrite process_skip. fold sel input.
    rewrite filter_In, negb_true_iff. reflexivity. }
  assert (Hclosed : forall a b, dish_eqb a b = true ->
                                dish_in b sel = true -> dish_in a sel = true).
  { intros a b Hab Hb. apply dish_in_iff in Hb. destruct Hb as [s [Hs Hbs]].
    apply dish_in_iff. exists s. split; [exact Hs|].
    eapply dish_eqb_trans; eassumption. }
  repeat split.
  - intros d [H1 H2]. apply dish_in_iff in H2. destruct H2 as [x [Hx Hdx]].
    apply Hskip in Hx. destruct Hx as [_ Hx].
    rewrite (Hclosed x d (dish_eqb_sym _ _ Hdx) H1) in Hx. discriminate.
  - intro Hd. apply dish_in_iff in Hd. destruct Hd as [x [Hx Hdx]].
    destruct (dish_in x sel) eqn:E.
    + left. eapply Hclosed; eassumption.
    + right. apply dish_in_iff. exists x. split; [|exact Hdx].
      apply Hskip. split; assumption.
  - intros [Hd|Hd]; apply dish_in_iff in Hd; destruct Hd as [x [Hx Hdx]];
      apply dish_in_iff; exists x; split; auto.
  - exact Hsel.
  - exact Hskp.
Qed.

(** *** Entries that are dropped *)

Lemma filter_perm {A : Type} (f : A -> bool) (l l' : list A) :
  Permutation l l' -> Permutation (filter f l) (filter f l').
Proof.
  induction 1 as [|x l l' _ IH|x y l|l l' l'' _ IH1 _ IH2]; simpl.
  - apply perm_nil.
  - destruct (f x); [apply perm_skip|]; exact IH.
  - destruct (f x), (f y); try apply Permutation_refl. apply perm_swap.
  - eapply perm_trans; eassumption.
Qed.

Lemma filter_split_perm {A : Type} (f : A -> bool) (l : list A) :
  Permutation (filter f l ++ filter (fun x => negb (f x)) l) l.
Proof.
  induction l as [|x l IH]; simpl; [apply perm_nil|].
  destruct (f x); simpl.
  - apply perm_skip, IH.
  - apply Permutation_sym, Permutation_cons_app, Permutation_sym, IH.
Qed.

Lemma filter_all {A : Type} (f : A -> bool) (l : list A) :
  (forall x, In x l -> f x = true) -> filter f l = l.
Proof.
  induction l as [|x l IH]; simpl; intro H; [reflexivity|].
  rewrite (H x (or_introl eq_refl)), IH; [reflexivity|].
  intros y Hy. apply H. right. exact Hy.
Qed.

Lemma filter_none {A : Type} (f : A -> bool) (l : list A) :
  (forall x, In x l -> f x = false) -> filter f l = [].
Proof.
  induction l as [|x l IH]; simpl; intro H; [reflexivity|].
  rewrite (H x (or_introl eq_refl)). apply IH.
  intros y Hy. apply H. right. exact Hy.
Qed.

Lemma NoDup_app_disjoint {A : Type} (l1 l2 : list A) (x : A) :
  NoDup (l1 ++ l2) -> In x l1 -> In x l2 -> False.
Proof.
  induction l1 as [|a l1 IH]; simpl; intros Hnd H1 H2; [exact H1|].
  inversion Hnd as [|? ? Hnot Hnd']; subst. destruct H1 as [->|H1].
  - apply Hnot, in_or_app. right. exact H2.
  - exact (IH Hnd' H1 H2).
Qed.

(** The loop splits the dishes it is given into the ones it adds and the
    ones it rejects. *)
Lemma loop_split (self : GoalOptimizationAgent.t)
  (sc : list (Q * DishWithStomachImpact)) (st : loop_state) :
  exists added rejected,
    selected (loop self sc st) = selected st ++ added
    /\ Permutation (added ++ rejected) (map snd sc).
Proof.
  revert st. induction sc as [|x sc IH]; intro st.
  - exists [], []. split; [symmetry; apply app_nil_r | apply perm_nil].
  - rewrite loop_cons.
    destruct (IH (step self st x)) as [added [rejected [E Hperm]]].
    unfold step in E at 2. destruct (fits self st (snd x)); simpl in E.
    + exists (snd x :: added), rejected. split.
      * rewrite E, <- app_assoc. reflexivity.
      * simpl. apply perm_skip, Hperm.
    + exists added, (snd x :: rejected). split; [exact E|].
      simpl. apply Permutation_sym, Permutation_cons_app, Permutation_sym, Hperm.
Qed.

(** As lists, too, the outputs partition the filtered input, as long as no
    two of its dishes are equal. *)
Lemma partition_of_distinct_dishes (self : GoalOptimizationAgent.t)
  (h : HashOrder) (dishes : list DishWithStomachImpact) (goal : string)
  (allergies dietary_filters : option (list string)) :
  no_equal_dishes (filtered h dishes allergies dietary_filters) ->
  partitions (filtered h dishes allergies dietary_filters)
    (fst (GoalOptimizationAgent.process self h dishes goal allergies
            dietary_filters))
    (snd (GoalOptimizationAgent.process self h dishes goal allergies
            dietary_filters)).
Proof.
  intros [Hnd Heq]. unfold partitions.
  rewrite process_skip, process_selected.
  set (input := filtered h dishes allergies dietary_filters) in *.
  destruct (loop_split self (scored input goal) init)
    as [sel [rejected [E Hperm]]].
  simpl in E. rewrite E.
  assert (Hall : Permutation (sel ++ rejected) input)
    by (eapply perm_trans; [exact Hperm | apply scored_perm]).
  set (f := fun d => dish_in d sel).
  assert (Hsel : filter f sel = sel).
  { apply filter_all. intros x Hx. apply dish_in_iff. exists x.
    split; [exact Hx | apply dish_eqb_refl]. }
  assert (Hrej : filter f rejected = []).
  { apply filter_none. intros r Hr. unfold f.
    destruct (dish_in r sel) eqn:Hin; [|reflexivity]. exfalso.
    apply dish_in_iff in Hin. destruct Hin as [s0 [Hs Hrs]].
    assert (r = s0).
    { apply Heq; [| |exact Hrs]; apply (Permutation_in _ Hall);
        apply in_or_app; [right|left]; assumption. }
    subst s0.
    apply (NoDup_app_disjoint sel rejected r); try assumption.
    apply (Permutation_NoDup (Permutation_sym Hall) Hnd). }
  assert (Hin : Permutation (filter f input) sel).
  { eapply perm_trans; [apply filter_perm, Permutation_sym, Hall|].
    rewrite filter_app, Hsel, Hrej, app_nil_r. apply Permutation_refl. }
  eapply perm_trans; [|apply (filter_split_perm f input)].
  apply Permutation_app_tail, Permutation_sym, Hin.
Qed.

(** C4 fails on the code when two dishes are equal.  A manual list with the
    same cake twice and a limit of 400 kcal reaches the Allocator as two
    equal dishes.  The first is selected; the second is rejected by the
    calorie bound, and [d not in selected] leaves it out of [skip] because
    it equals the selected one.  The outputs hold one entry of the two, so
    they do not partition the filtered input, and the plan lists one cake
    and no skipped dish. *)
Theorem rejected_duplicate_dropped :
  let dishes :=
    StomachPhysicsAgent.process
      (NutritionAgent.process
         (map pipeline._detected_dish_from_manual two_cakes)) in
  let input := filtered written_order dishes None None in
  let out :=
    GoalOptimizationAgent.process cake_agent written_order dishes
      "enjoyment_first" None None in
  input = [enrich "Cake" 100; enrich "Cake" 100]
  /\ out = ([enrich "Cake" 100], [])
  /\ ~ partitions input (fst out) (snd out)
  /\ match pipeline.r_strategy
             (pipeline.run_pipeline_manual written_order two_cakes
                "enjoyment_first" (Some 400%Z) None None) with
     | pipeline.Planned s =>
         map PhaseItem.dish_name
             (flat_map items (StrategyPlanningAgent.phases s)) = ["Cake"]
         /\ StrategyPlanningAgent.skip s = []
     | pipeline.NoPlan => False
     end.
Proof.
  cbv zeta. split; [vm_compute; reflexivity|].
  split; [vm_compute; reflexivity|]. split.
  - unfold partitions. intro Hperm. apply Permutation_length in Hperm.
    revert Hperm. vm_compute. discriminate.
  - vm_compute. split; reflexivity.
Qed.

(** C1, as stated, fails: the steak comes first in score order and is
    rejected (271 kcal against a budget of 100), and the salad after it is
    still selected. *)
Lemma later_item_taken_after_reject :
  ~ nothing_taken_after_a_reject tight_agent written_order steak_and_salad
      "muscle_gain" None None.
Proof.
  intro H.
  assert (Horder :
    map snd (scored (filtered written_order steak_and_salad None None)
                    "muscle_gain")
    = [] ++ enrich "Steak" 100 :: [enrich "Mixed Salad" 100])
    by (vm_compute; reflexivity).
  assert (Hrejected :
    dish_in (enrich "Steak" 100)
      (fst (process tight_agent written_order steak_and_salad "muscle_gain"
              None None)) = false)
    by (vm_compute; reflexivity).
  specialize (H _ _ _ Horder Hrejected (enrich "Mixed Salad" 100)
                (or_introl eq_refl)).
  vm_compute in H. discriminate H.
Qed.

(** C1, amended. An item that does not fit at its turn is skipped for good:
    the totals stay as they were and the result is the one the pass gives
    without that item.  The pass goes on, and an item after it that fits the
    totals reached at its own turn is selected. *)
Theorem rejected_item_skipped_pass_continues (self : GoalOptimizationAgent.t)
  (h : HashOrder) (dishes : list DishWithStomachImpact) (goal : string)
  (allergies dietary_filters : option (list string))
  (pre post : list (Q * DishWithStomachImpact))
  (x : Q * DishWithStomachImpact) :
  scored (filtered h dishes allergies dietary_filters) goal
  = pre ++ x :: post ->
  fits self (loop self pre init) (snd x) = false ->
  let selected :=
    fst (GoalOptimizationAgent.process self h dishes goal allergies
           dietary_filters) in
  selected = GoalOptimizationAgent.selected (loop self (pre ++ post) init)
  /\ forall post1 y post2,
       post = post1 ++ y :: post2 ->
       fits self (loop self (pre ++ post1) init) (snd y) = true ->
       In (snd y) selected.
Proof.
  intros Hsc Hrej sel.
  assert (Hsel : sel = GoalOptimizationAgent.selected
                         (loop self (pre ++ post) init)).
  { unfold sel. rewrite process_selected, Hsc, !loop_app, loop_cons.
    unfold step. rewrite Hrej. reflexivity. }
  split; [exact Hsel|].
  intros post1 y post2 Hpost Hfit. rewrite Hsel, Hpost.
  rewrite app_assoc, loop_app, loop_cons.
  destruct (loop_selected self post2
              (step self (loop self (pre ++ post1) init) y))
    as [added [E _]].
  rewrite E. unfold step. rewrite Hfit. simpl.
  apply in_or_app. left. apply in_or_app. right. left. reflexivity.
Qed.

Lemma rejected_item_skipped_pass_continues_witness :
  fst (process tight_agent written_order steak_and_salad "muscle_gain"
         None None)
  = [enrich "Mixed Salad" 100]
  /\ In (enrich "Mixed Salad" 100)
        (fst (process tight_agent written_order steak_and_salad "muscle_gain"
                None None)).
Proof.
  pose (sc := scored (filtered written_order steak_and_salad None None)
                     "muscle_gain").
  pose (x := hd (0, enrich "Steak" 100) sc).
  pose (y := hd (0, enrich "Steak" 100) (tl sc)).
  assert (Hsc : sc = [] ++ x :: [y]) by (vm_compute; reflexivity).
  assert (Hrej : fits tight_agent (loop tight_agent [] init) (snd x) = false)
    by (vm_compute; reflexivity).
  destruct (rejected_item_skipped_pass_continues tight_agent written_order
              steak_and_salad "muscle_gain" None None [] [y] x Hsc Hrej)
    as [Hsel Hlater].
  split.
  - rewrite Hsel. vm_compute. reflexivity.
  - apply (Hlater [] y [] eq_refl). vm_compute. reflexivity.
Defined.

(** ** Planner: grouping by phase *)

Import StrategyPlanningAgent.

Lemma classify_phase_range (d : DishWithStomachImpact) :
  In (_classify_phase d) phase_names.
Proof.
  unfold _classify_phase, phase_names.
  repeat match goal with
         | |- context [if ?c then _ else _] => destruct c
         end; simpl; tauto.
Qed.

Lemma phase_order_range (k : string) : (1 <= _phase_order k <= 5)%Z.
Proof.
  unfold _phase_order.
  repeat match goal with
         | |- context [if ?c then _ else _] => destruct c
         end; lia.
Qed.

Lemma phase_order_injective (a b : string) :
  In a phase_names -> In b phase_names ->
  _phase_order a = _phase_order b -> a = b.
Proof.
  unfold phase_names. simpl. intros Ha Hb.
  repeat match goal with
         | H : _ \/ _ |- _ => destruct H
         | H : False |- _ => destruct H
         end; subst; vm_compute; intro; congruence.
Qed.

Section Grouping.
Variable k : string.

Lemma group_of_setdefault_append (phase : string) (d : DishWithStomachImpact)
  (groups : list (string * list DishWithStomachImpact)) :
  group_of (setdefault_append phase d groups) k
  = if String.eqb k phase then group_of groups k ++ [d]
    else group_of groups k.
Proof.
  induction groups as [|[k0 ds] rest IH]; simpl.
  - destruct (String.eqb k phase); reflexivity.
  - destruct (String.eqb phase k0) eqn:E0; simpl.
    + apply String.eqb_eq in E0. subst k0.
      destruct (String.eqb k phase); reflexivity.
    + rewrite IH. destruct (String.eqb k phase) eqn:E1; [|reflexivity].
      apply String.eqb_eq in E1. subst k. rewrite E0. reflexivity.
Qed.

Lemma keys_setdefault_append (phase : string) (d : DishWithStomachImpact)
  (groups : list (string * list DishWithStomachImpact)) :
  In k (map fst (setdefault_append phase d groups))
  <-> In k (map fst groups) \/ k = phase.
Proof.
  induction groups as [|[k0 ds] rest IH]; simpl.
  - intuition congruence.
  - destruct (String.eqb phase k0) eqn:E0; simpl.
    + apply String.eqb_eq in E0. subst k0. intuition congruence.
    + rewrite IH. tauto.
Qed.

Lemma group_of_fold (l : list DishWithStomachImpact)
  (groups : list (string * list DishWithStomachImpact)) :
  group_of (fold_left (fun g d => setdefault_append (_classify_phase d) d g)
                      l groups) k
  = group_of groups k ++ classified k l.
Proof.
  revert groups. induction l as [|d l IH]; intro groups; simpl.
  - symmetry. apply app_nil_r.
  - rewrite IH, group_of_setdefault_append.
    destruct (String.eqb k (_classify_phase d)).
    + rewrite <- app_assoc. reflexivity.
    + reflexivity.
Qed.

Lemma keys_fold (l : list DishWithStomachImpact)
  (groups : list (string * list DishWithStomachImpact)) :
  In k (map fst (fold_left
                   (fun g d => setdefault_append (_classify_phase d) d g)
                   l groups))
  <-> In k (map fst groups) \/ exists d, In d l /\ k = _classify_phase d.
Proof.
  revert groups. induction l as [|d l IH]; intro groups; simpl.
  - split; [tauto|]. intros [H|[d [[] _]]]. exact H.
  - rewrite IH, keys_setdefault_append. split.
    + intros [[H|H]|[d' [H1 H2]]]; eauto.
    + intros [H|[d' [[<-|H1] H2]]]; eauto.
Qed.
End Grouping.

Lemma nodup_setdefault_append (phase : string) (d : DishWithStomachImpact)
  (groups : list (string * list DishWithStomachImpact)) :
  NoDup (map fst groups) -> NoDup (map fst (setdefault_append phase d groups)).
Proof.
  induction groups as [|[k0 ds] rest IH]; simpl; intro H.
  - constructor; [intros [] | constructor].
  - destruct (String.eqb phase k0) eqn:E0; simpl; [exact H|].
    inversion H as [|? ? Hnot Hrest]; subst. constructor; [|apply IH, Hrest].
    rewrite keys_setdefault_append. intros [Hin| ->]; [tauto|].
    rewrite String.eqb_refl in E0. discriminate.
Qed.

Lemma nodup_fold (l : list DishWithStomachImpact)
  (groups : list (string * list DishWithStomachImpact)) :
  NoDup (map fst groups) ->
  NoDup (map fst (fold_left
                    (fun g d => setdefault_append (_classify_phase d) d g)
                    l groups)).
Proof.
  revert groups. induction l as [|d l IH]; intros groups H; simpl.
  - exact H.
  - apply IH, nodup_setdefault_append, H.
Qed.

Lemma perm_setdefault_append (phase : string) (d : DishWithStomachImpact)
  (groups : list (string * list DishWithStomachImpact)) :
  Permutation (flat_map snd (setdefault_append phase d groups))
              (flat_map snd groups ++ [d]).
Proof.
  induction groups as [|[k0 ds] rest IH]; simpl.
  - apply Permutation_refl.
  - destruct (String.eqb phase k0); simpl.
    + rewrite <- !app_assoc. apply Permutation_app_head.
      apply Permutation_app_comm.
    + rewrite <- app_assoc. apply Permutation_app_head, IH.
Qed.

Lemma perm_fold (l : list DishWithStomachImpact)
  (groups : list (string * list DishWithStomachImpact)) :
  Permutation
    (flat_map snd (fold_left
                     (fun g d => setdefault_append (_classify_phase d) d g)
                     l groups))
    (flat_map snd groups ++ l).
Proof.
  revert groups. induction l as [|d l IH]; intro groups; simpl.
  - rewrite app_nil_r. apply Permutation_refl.
  - eapply perm_trans; [apply IH|].
    eapply perm_trans;
      [apply Permutation_app_tail, perm_setdefault_append|].
    rewrite <- app_assoc. apply Permutation_refl.
Qed.

(** A dict returns, for each of its keys, the value stored with it. *)
Lemma flat_map_group_of (groups : list (string * list DishWithStomachImpact)) :
  NoDup (map fst groups) ->
  flat_map (group_of groups) (map fst groups) = flat_map snd groups.
Proof.
  induction groups as [|[k0 ds] rest IH]; simpl; intro H; [reflexivity|].
  inversion H as [|? ? Hnot Hrest]; subst.
  rewrite String.eqb_refl. f_equal. rewrite <- (IH Hrest).
  clear IH H Hrest. revert Hnot.
  generalize (map fst rest) as ks. induction ks as [|k ks IHk]; simpl; intro Hnot.
  - reflexivity.
  - destruct (String.eqb k k0) eqn:E.
    + apply String.eqb_eq in E. tauto.
    + f_equal. apply IHk. tauto.
Qed.

(** The groups of the Planner: one per phase that occurs, holding the
    selected dishes of that phase in their order. *)
Lemma phase_groups_spec (sel : list DishWithStomachImpact) :
  NoDup (map fst (phase_groups sel))
  /\ (forall k, group_of (phase_groups sel) k = classified k sel)
  /\ (forall k, In k (map fst (phase_groups sel))
                <-> exists d, In d sel /\ k = _classify_phase d)
  /\ Permutation (flat_map (group_of (phase_groups sel))
                           (map fst (phase_groups sel))) sel.
Proof.
  unfold phase_groups. repeat split.
  - apply nodup_fold. constructor.
  - intro k. rewrite group_of_fold. reflexivity.
  - intro H. apply keys_fold in H. destruct H as [[]|H]. exact H.
  - intro H. apply keys_fold. right. exact H.
  - rewrite flat_map_group_of by (apply nodup_fold; constructor).
    apply (perm_fold sel []).
Qed.

(** ** Planner: phases and items *)

Lemma plan_dishes_spec (sel : list DishWithStomachImpact) (cl : Z)
  (acc : totals) (ds : list DishWithStomachImpact) :
  Forall2 (planned_from sel cl) (fst (plan_dishes sel cl acc ds)) ds.
Proof.
  revert acc. induction ds as [|d ds IH]; intro acc; cbn [plan_dishes].
  - constructor.
  - destruct (plan_dish sel cl acc d) as [item acc1] eqn:E1.
    specialize (IH acc1).
    destruct (plan_dishes sel cl acc1 ds) as [its acc2]. simpl in *.
    constructor; [|exact IH].
    exists acc. rewrite E1. reflexivity.
Qed.

Lemma plan_phases_spec (sel : list DishWithStomachImpact) (cl : Z)
  (groups : list (string * list DishWithStomachImpact))
  (acc : totals) (names : list string) :
  Forall2 (phase_for sel cl groups)
          (fst (plan_phases sel cl groups acc names)) names.
Proof.
  revert acc. induction names as [|k names IH]; intro acc; cbn [plan_phases].
  - constructor.
  - pose proof (plan_dishes_spec sel cl acc (group_of groups k)) as Hitems.
    destruct (plan_dishes sel cl acc (group_of groups k)) as [its acc1].
    specialize (IH acc1).
    destruct (plan_phases sel cl groups acc1 names) as [ps acc2]. simpl in *.
    constructor; [|exact IH].
    repeat split; assumption.
Qed.

Lemma planned_from_name (sel : list DishWithStomachImpact) (cl : Z)
  (item : PhaseItem.t) (d : DishWithStomachImpact) :
  planned_from sel cl item d -> PhaseItem.dish_name item = name_of d.
Proof.
  intros [acc ->]. unfold plan_dish.
  destruct (_compute_portion _ _ _ _) as [portion reason]. reflexivity.
Qed.

Lemma planned_from_names (sel : list DishWithStomachImpact) (cl : Z)
  (its : list PhaseItem.t) (ds : list DishWithStomachImpact) :
  Forall2 (planned_from sel cl) its ds ->
  map PhaseItem.dish_name its = map name_of ds.
Proof.
  induction 1 as [|item d its ds H _ IH]; simpl; [reflexivity|].
  rewrite IH, (planned_from_name _ _ _ _ H). reflexivity.
Qed.

Lemma phase_for_names (sel : list DishWithStomachImpact) (cl : Z)
  (groups : list (string * list DishWithStomachImpact))
  (ps : list EatingPhase) (names : list string) :
  Forall2 (phase_for sel cl groups) ps names ->
  map PhaseItem.dish_name (flat_map items ps)
  = map name_of (flat_map (group_of groups) names).
Proof.
  induction 1 as [|p k ps names [_ [_ H]] _ IH]; simpl; [reflexivity|].
  rewrite !map_app, IH, (planned_from_names _ _ _ _ H). reflexivity.
Qed.

Lemma Forall2_In_l {A B : Type} {R : A -> B -> Prop} {l : list A}
  {l' : list B} {a : A} :
  Forall2 R l l' -> In a l -> exists b, In b l' /\ R a b.
Proof.
  induction 1 as [|x y l l' Hxy _ IH]; intro Hin; [destruct Hin|].
  destruct Hin as [<-|Hin].
  - exists y. split; [left; reflexivity | exact Hxy].
  - destruct (IH Hin) as [b [Hb Hab]]. exists b. split; [right|]; assumption.
Qed.

Section SortedTransfer.
Context {A B : Type} (R : A -> B -> Prop)
        (P : B -> B -> Prop) (Q : A -> A -> Prop).
Hypothesis transfer :
  forall a a' b b', R a b -> R a' b' -> P b b' -> Q a a'.

Lemma StronglySorted_Forall2 (l : list A) (l' : list B) :
  Forall2 R l l' -> StronglySorted P l' -> StronglySorted Q l.
Proof.
  induction 1 as [|a b l l' Hab Hl IH]; intro Hs.
  - constructor.
  - inversion Hs as [|? ? Hs' Hb]; subst. constructor; [apply IH, Hs'|].
    clear IH Hs Hs'. induction Hl as [|a' b' l l' Hab' _ IHl].
    + constructor.
    + inversion Hb; subst. constructor; [|apply IHl; assumption].
      eapply transfer; eassumption.
Qed.
End SortedTransfer.

Lemma phase_names_strict (names : list string) :
  StronglySorted (Py.key_le (fun k => inject_Z (_phase_order k))) names ->
  NoDup names ->
  (forall k, In k names -> In k phase_names) ->
  StronglySorted (fun a b => (_phase_order a < _phase_order b)%Z) names.
Proof.
  induction 1 as [|a l Hl IH Ha]; intros Hnd Hin.
  - constructor.
  - inversion Hnd as [|? ? Hnot Hnd']; subst.
    constructor; [apply IH; [exact Hnd' | intros; apply Hin; right; assumption]|].
    apply Forall_forall. intros b Hb. rewrite Forall_forall in Ha.
    specialize (Ha b Hb). unfold Py.key_le in Ha. rewrite <- Zle_Qle in Ha.
    assert (Hne : _phase_order a <> _phase_order b).
    { intro E. apply phase_order_injective in E.
      - subst. tauto.
      - apply Hin. left. reflexivity.
      - apply Hin. right. exact Hb. }
    lia.
Qed.

Lemma process_phases (sel skp : list DishWithStomachImpact) (goal : string)
  (cl : Z) :
  phases (fst (process sel skp goal cl))
  = Py.sort_by (fun p => inject_Z (phase_order p))
      (fst (plan_phases sel cl (phase_groups sel) (mkTotals 0 0)
              (Py.sort_by (fun k => inject_Z (_phase_order k))
                          (map fst (phase_groups sel)))))
  /\ skip (fst (process sel skp goal cl))
     = map (fun d => mkSkip (name_of d)
                       "Lower priority for goal or exceeded volume/calorie limit")
           skp.
Proof.
  unfold process. destruct (plan_phases _ _ _ _ _) as [ps acc].
  split; reflexivity.
Qed.

(** What the Planner emits: one phase per group, in the order of the sorted
    group names. *)
Lemma process_phases_spec (sel skp : list DishWithStomachImpact)
  (goal : string) (cl : Z) :
  exists names,
    Permutation names (map fst (phase_groups sel))
    /\ StronglySorted (fun a b => (_phase_order a < _phase_order b)%Z) names
    /\ Forall2 (phase_for sel cl (phase_groups sel))
               (phases (fst (process sel skp goal cl))) names.
Proof.
  destruct (process_phases sel skp goal cl) as [E _]. rewrite E. clear E.
  destruct (phase_groups_spec sel) as [Hnd [_ [Hkeys _]]].
  set (names := Py.sort_by (fun k => inject_Z (_phase_order k))
                           (map fst (phase_groups sel))).
  pose proof (sort_by_perm (fun k => inject_Z (_phase_order k))
                (map fst (phase_groups sel))) as Hperm.
  pose proof (sort_by_sorted (fun k => inject_Z (_phase_order k))
                (map fst (phase_groups sel))) as Hsorted.
  fold names in Hperm, Hsorted.
  pose proof (plan_phases_spec sel cl (phase_groups sel) (mkTotals 0 0) names)
    as Hspec.
  rewrite sort_by_of_sorted.
  - exists names. split; [exact Hperm|]. split; [|exact Hspec].
    apply phase_names_strict.
    + exact Hsorted.
    + apply (Permutation_NoDup (Permutation_sym Hperm) Hnd).
    + intros k Hk. apply (Permutation_in _ Hperm) in Hk. apply Hkeys in Hk.
      destruct Hk as [d [_ ->]]. apply classify_phase_range.
  - eapply (StronglySorted_Forall2 (phase_for sel cl (phase_groups sel)));
      [|exact Hspec|exact Hsorted].
    intros a a' b b' [_ [Ha _]] [_ [Ha' _]] Hbb'.
    unfold Py.key_le in *. rewrite Ha, Ha'. exact Hbb'.
Qed.

(** The dish names over all phases are those of the selected dishes, each as
    often as it was selected. *)
Lemma phase_item_names (sel skp : list DishWithStomachImpact)
  (goal : string) (cl : Z) :
  Permutation
    (map PhaseItem.dish_name
         (flat_map items (phases (fst (process sel skp goal cl)))))
    (map name_of sel).
Proof.
  destruct (process_phases_spec sel skp goal cl) as [names [Hperm [_ Hspec]]].
  rewrite (phase_for_names _ _ _ _ _ Hspec).
  apply Permutation_map.
  destruct (phase_groups_spec sel) as [_ [_ [_ Hall]]].
  eapply perm_trans; [|exact Hall].
  apply Permutation_flat_map, Hperm.
Qed.

(** C7. The phase names have the fixed order starter 1, protein 2,
    vegetables 3, carbs 4, treats 5.  In the Planner's output the dish names
    over all phases are those of the selected dishes, each exactly as often
    as it was selected; each emitted phase belongs to one of the five phase
    names, holds exactly the selected dishes classified into it, in their
    order, and is not empty; the phase order indices lie in 1..5 and
    increase strictly along the output. *)
Theorem planner_phases (selected_dishes skip_dishes : list DishWithStomachImpact)
  (goal : string) (calorie_limit : Z) :
  let plan :=
    fst (StrategyPlanningAgent.process selected_dishes skip_dishes goal
           calorie_limit) in
  map _phase_order phase_names = [1; 2; 3; 4; 5]%Z
  /\ Permutation (map PhaseItem.dish_name (flat_map items (phases plan)))
                 (map name_of selected_dishes)
  /\ Forall (fun p =>
               exists k,
                 In k phase_names
                 /\ phase_name p = Py.title (Py.replace_char "_" " " k)
                 /\ phase_order p = _phase_order k
                 /\ map PhaseItem.dish_name (items p)
                    = map name_of (classified k selected_dishes)
                 /\ items p <> [])
            (phases plan)
  /\ StronglySorted (fun p q => (phase_order p < phase_order q)%Z)
                    (phases plan)
  /\ Forall (fun p => (1 <= phase_order p <= 5)%Z) (phases plan).
Proof.
  intro plan. subst plan.
  destruct (process_phases_spec selected_dishes skip_dishes goal calorie_limit)
    as [names [Hperm [Hstrict Hspec]]].
  destruct (phase_groups_spec selected_dishes) as [_ [Hgroup [Hkeys _]]].
  split; [reflexivity|].
  split; [apply phase_item_names|]. split; [|split].
  - apply Forall_forall. intros p Hp.
    destruct (Forall2_In_l Hspec Hp) as [k [Hk [Hname [Hord Hitems]]]].
    apply (Permutation_in _ Hperm), Hkeys in Hk.
    destruct Hk as [d [Hd Hkd]].
    exists k. split; [subst k; apply classify_phase_range|].
    split; [exact Hname|]. split; [exact Hord|].
    rewrite Hgroup in Hitems. split.
    + apply (planned_from_names _ _ _ _ Hitems).
    + intro Hnil. apply Forall2_length in Hitems. rewrite Hnil in Hitems.
      assert (Hin : In d (classified k selected_dishes)).
      { apply filter_In. split; [exact Hd|]. subst k. apply String.eqb_refl. }
      destruct (classified k selected_dishes); [destruct Hin | discriminate].
  - eapply (StronglySorted_Forall2
              (phase_for selected_dishes calorie_limit
                 (phase_groups selected_dishes)));
      [|exact Hspec|exact Hstrict].
    intros a a' b b' [_ [Ha _]] [_ [Ha' _]] Hbb'. rewrite Ha, Ha'. exact Hbb'.
  - apply Forall_forall. intros p Hp.
    destruct (Forall2_In_l Hspec Hp) as [k [_ [_ [Hord _]]]].
    rewrite Hord. apply phase_order_range.
Qed.

(** ** Planner: portions *)

Lemma compute_portion_bounds (dish : DishWithStomachImpact)
  (sel : list DishWithStomachImpact) (cal_remaining vol_remaining : Q) :
  let portion := fst (_compute_portion dish sel cal_remaining vol_remaining) in
  20 <= portion
  /\ portion <= 250
  /\ portion <= Qmax 20 (Py.round (grams_of dish) 0).
Proof.
  unfold _compute_portion. cbn [fst].
  set (max_by_cal := if Py.Qlt_bool 0 (calories (nutrition_of dish))
                     then _ else _).
  set (max_by_vol := if Py.Qlt_bool 0 _ then _ else _).
  set (m := Qmin (Qmin (Qmin (grams_of dish) max_by_cal) max_by_vol) 250).
  assert (Hm250 : m <= 250) by apply Q.le_min_r.
  assert (Hmg : m <= grams_of dish).
  { unfold m. eapply Qle_trans; [apply Q.le_min_l|].
    eapply Qle_trans; [apply Q.le_min_l|]. apply Q.le_min_l. }
  split; [apply Q.le_max_l|]. split.
  - apply Q.max_lub; [lra|].
    eapply Qle_trans; [apply (round_mono _ _ 0%nat Hm250)|].
    rewrite (round_int 250). apply Qle_refl.
  - apply Q.max_le_compat_l, round_mono, Hmg.
Qed.



(** Rounding to whole grams can also lift a portion above the estimated
    mass: 99.6 g of rice are planned as 100 g. *)
Lemma portion_rounds_up :
  fst (_compute_portion (enrich "Rice" 99.6) [enrich "Rice" 99.6] 2000
         settings.STOMACH_CAPACITY_ML)
  == 100
  /\ grams_of (enrich "Rice" 99.6) < 100.
Proof. vm_compute. split; reflexivity. Qed.


(** ** Allocator and Planner: allergens *)

Lemma filter_allergies_spec (dishes : list DishWithStomachImpact)
  (allergies : list string) (a : string) (d : DishWithStomachImpact) :
  In a allergies ->
  In d (_filter_allergies dishes allergies) ->
  In d dishes /\ Py.contains (Py.lower a) (Py.lower (name_of d)) = false.
Proof.
  intros Ha Hd. unfold _filter_allergies in Hd.
  destruct allergies as [|a0 rest]; [destruct Ha|].
  apply filter_In in Hd. destruct Hd as [Hin Hany]. split; [exact Hin|].
  apply negb_true_iff in Hany. unfold Py.any_in in Hany.
  destruct (Py.contains (Py.lower a) (Py.lower (name_of d))) eqn:E;
    [|reflexivity].
  assert (Hex : existsb (fun kw => Py.contains kw (Py.lower (name_of d)))
                        (map Py.lower (a0 :: rest)) = true).
  { apply existsb_exists. exists (Py.lower a). split; [|exact E].
    apply in_map, Ha. }
  congruence.
Qed.

Lemma filter_dietary_incl (h : HashOrder)
  (dishes : list DishWithStomachImpact) (filters : list string) :
  incl (_filter_dietary h dishes filters) dishes.
Proof.
  unfold _filter_dietary. destruct filters as [|f0 rest];
    [apply incl_refl|].
  destruct (Py.str_in "vegan" _); [apply incl_filter|].
  destruct (Py.str_in "vegetarian" _); [apply incl_filter | apply incl_refl].
Qed.

(** No dish that passes the filters carries a name with an allergen in it. *)
Lemma filtered_names (h : HashOrder) (dishes : list DishWithStomachImpact)
  (allergies : list string) (dietary_filters : option (list string))
  (a nm : string) :
  In a allergies ->
  Py.contains (Py.lower a) (Py.lower nm) = true ->
  ~ In nm (map name_of (filtered h dishes (Some allergies) dietary_filters)).
Proof.
  intros Ha Hnm Hin. apply in_map_iff in Hin. destruct Hin as [d [Hname Hd]].
  unfold filtered in Hd. apply filter_dietary_incl in Hd. simpl in Hd.
  destruct (filter_allergies_spec _ _ _ _ Ha Hd) as [_ Hno].
  rewrite Hname in Hno. congruence.
Qed.

Lemma run_strategy (h : HashOrder) (d : DetectedDish)
  (ds : list DetectedDish) (goal : string) (calorie_limit : option Z)
  (allergies dietary_filters : list string) :
  let budget := or_default calorie_limit in
  let out :=
    GoalOptimizationAgent.process
      (__init__ (Some budget) settings.STOMACH_CAPACITY_ML) h
      (StomachPhysicsAgent.process (NutritionAgent.process (d :: ds)))
      goal (Some allergies) (Some dietary_filters) in
  pipeline.r_strategy
    (pipeline._run_rest_of_pipeline h (d :: ds) goal calorie_limit
       allergies dietary_filters)
  = pipeline.Planned (fst (process (fst out) (snd out) goal budget)).
Proof.
  intros budget out. unfold pipeline._run_rest_of_pipeline.
  fold budget. fold out.
  destruct out as [sel skp]. simpl.
  destruct (process sel skp goal budget) as [st ex]. reflexivity.
Qed.

(** C2, as stated, fails: with the allergen [chicken] the grilled chicken is
    in no phase, and it is not in the skip list of the plan either. *)
Lemma allergen_item_not_listed :
  ~ allergen_items_listed_as_skipped written_order chicken_and_rice
      "fat_loss" None ["chicken"] None.
Proof.
  unfold allergen_items_listed_as_skipped. intro H.
  specialize (H (pipeline.mkManual "Grilled Chicken" (Some 150) None)
                "chicken" (or_introl eq_refl) (or_introl eq_refl) eq_refl).
  revert H. vm_compute. intros [_ []].
Qed.

(** C2, amended. A dish name that contains one of the allergen keywords
    (both lower-cased) is the name of no selected dish, hence of no item in
    any phase of the plan; it is not the name of a skipped dish either, so
    the skip list of the plan does not mention it: the skip list holds only
    dishes that passed the filters and were not selected. *)
Theorem allergen_items_left_out (h : HashOrder)
  (detected : list DetectedDish) (goal : string) (calorie_limit : option Z)
  (allergies dietary_filters : list string) (a nm : string) :
  In a allergies ->
  Py.contains (Py.lower a) (Py.lower nm) = true ->
  let out :=
    GoalOptimizationAgent.process
      (__init__ (Some (or_default calorie_limit)) settings.STOMACH_CAPACITY_ML)
      h (StomachPhysicsAgent.process (NutritionAgent.process detected))
      goal (Some allergies) (Some dietary_filters) in
  ~ In nm (map name_of (fst out))
  /\ ~ In nm (map name_of (snd out))
  /\ match pipeline.r_strategy
             (pipeline._run_rest_of_pipeline h detected goal calorie_limit
                allergies dietary_filters) with
     | pipeline.Planned s =>
         (forall p, In p (phases s) ->
                    ~ In nm (map PhaseItem.dish_name (items p)))
         /\ ~ In nm (map skip_name (skip s))
     | pipeline.NoPlan => detected = []
     end.
Proof.
  intros Ha Hnm out.
  pose proof (filtered_names h
                (StomachPhysicsAgent.process (NutritionAgent.process detected))
                allergies (Some dietary_filters) a nm Ha Hnm) as Hfiltered.
  assert (Hsel : ~ In nm (map name_of (fst out))).
  { intro Hin. apply Hfiltered. apply in_map_iff in Hin.
    destruct Hin as [d [Hname Hd]]. apply in_map_iff. exists d.
    split; [exact Hname|]. apply (selected_incl_filtered _ _ _ _ _ _ _ Hd). }
  assert (Hskp : ~ In nm (map name_of (snd out))).
  { intro Hin. apply Hfiltered. apply in_map_iff in Hin.
    destruct Hin as [d [Hname Hd]]. apply in_map_iff. exists d.
    split; [exact Hname|]. apply (skip_incl_filtered _ _ _ _ _ _ _ Hd). }
  split; [exact Hsel|]. split; [exact Hskp|].
  destruct detected as [|d ds]; [reflexivity|].
  rewrite run_strategy. fold out. split.
  - intros p Hp Hin. apply Hsel.
    apply (Permutation_in _ (phase_item_names (fst out) (snd out) goal
                               (or_default calorie_limit))).
    rewrite flat_map_concat_map, concat_map. apply in_concat.
    exists (map PhaseItem.dish_name (items p)). split; [|exact Hin].
    apply in_map, in_map, Hp.
  - destruct (process_phases (fst out) (snd out) goal
                (or_default calorie_limit)) as [_ E].
    rewrite E, map_map. simpl. exact Hskp.
Qed.

(** ** NutritionEnricher: confidence *)

Lemma dict_get_In (db : list (string * NutritionAgent.entry)) (k : string)
  (v : NutritionAgent.entry) :
  NutritionAgent.dict_get db k = Some v -> In (k, v) db.
Proof.
  induction db as [|[k0 v0] rest IH]; simpl; [discriminate|].
  destruct (String.eqb k k0) eqn:E.
  - apply String.eqb_eq in E. intro H. left. congruence.
  - intro H. right. apply IH, H.
Qed.

(** Every key of the table occurs in the text of the table. *)
Lemma keys_in_repr :
  forallb (fun kv => Py.contains (fst kv)
                       (NutritionAgent.repr_db NutritionAgent._db))
          NutritionAgent._db = true.
Proof. vm_compute. reflexivity. Qed.

(** C3, as stated, fails: the unrecognized name [xyzfood123] takes the
    fallback profile and gets 0.7, the value of a substring match; there is
    no third tier. *)
Lemma fallback_confidence_is_medium : ~ three_confidence_tiers.
Proof.
  intros [low [_ [Hlow H]]].
  specialize (H (detect "xyzfood123" 100)).
  assert (Htier : lookup_tier (name (detect "xyzfood123" 100))
                  = FallbackDefault) by (vm_compute; reflexivity).
  assert (Hconf : enriched_confidence (detect "xyzfood123" 100) = 0.7)
    by (vm_compute; reflexivity).
  rewrite Htier, Hconf in H. apply Hlow. symmetry. exact H.
Qed.

(** The confidence does not follow the kind of match either: a key with a
    blank in front is an exact match after [strip] and gets 0.7, a fragment
    of a key is a substring match and gets 0.9, and [cal], which matches no
    key but occurs in the printed table, takes the fallback profile with
    0.9. *)
Lemma confidence_ignores_match_kind :
  (lookup_tier " rice" = ExactKey
   /\ enriched_confidence (detect " rice" 100) = 0.7)
  /\ (lookup_tier "chick" = SubstringMatch
      /\ enriched_confidence (detect "chick" 100) = 0.9)
  /\ (lookup_tier "cal" = FallbackDefault
      /\ enriched_confidence (detect "cal" 100) = 0.9).
Proof. vm_compute. repeat split. Qed.

(** No key of the table has a blank at either end: [strip] leaves the keys
    as they are. *)
Lemma keys_are_stripped :
  forallb (fun kv => String.eqb (Py.strip (fst kv)) (fst kv))
          NutritionAgent._db = true.
Proof. vm_compute. reflexivity. Qed.

(** C3, amended. The attached confidence is one of two values, 0.9 and 0.7;
    there is no third, low tier.  A dish whose lower-cased name is a key of
    the reference table is an exact match, gets the values stored under that
    key, and its confidence is 0.9.  The unrecognized name [xyzfood123]
    receives the fallback profile with confidence 0.7. *)
Theorem confidence_two_values (d : DetectedDish) :
  (enriched_confidence d = 0.9 \/ enriched_confidence d = 0.7)
  /\ (forall e,
        NutritionAgent.dict_get NutritionAgent._db (Py.lower (name d))
        = Some e ->
        lookup_tier (name d) = ExactKey
        /\ NutritionAgent._lookup (name d) = e
        /\ enriched_confidence d = 0.9)
  /\ (name d = "xyzfood123" ->
      lookup_tier (name d) = FallbackDefault
      /\ nutrition_per_100g (NutritionAgent.process_one d)
         = mkNutritionalData 150 8 8 12 1.5 10 0.7).
Proof.
  split; [|split].
  - unfold enriched_confidence, NutritionAgent.process_one.
    cbn [nutrition_per_100g nutrition_confidence].
    destruct (Py.contains _ _); [left|right]; reflexivity.
  - intros e Hkey. pose proof (dict_get_In _ _ _ Hkey) as Hin.
    assert (Hstrip : Py.strip (Py.lower (name d)) = Py.lower (name d)).
    { pose proof keys_are_stripped as Hall. rewrite forallb_forall in Hall.
      apply String.eqb_eq. exact (Hall _ Hin). }
    split; [|split].
    + unfold lookup_tier. cbv zeta. rewrite Hstrip, Hkey. reflexivity.
    + unfold NutritionAgent._lookup. cbv zeta. rewrite Hstrip, Hkey.
      reflexivity.
    + unfold enriched_confidence, NutritionAgent.process_one.
      cbn [nutrition_per_100g nutrition_confidence].
      pose proof keys_in_repr as Hall. rewrite forallb_forall in Hall.
      pose proof (Hall _ Hin) as Hc. cbn [fst] in Hc. rewrite Hc.
      reflexivity.
  - intro H. unfold lookup_tier, NutritionAgent.process_one.
    cbn [nutrition_per_100g]. rewrite H. split; vm_compute; reflexivity.
Qed.

(** ** Orchestrator: independence of the hash order *)

Lemma any_in_perm (l1 l2 : list string) (s : string) :
  Permutation l1 l2 -> Py.any_in l1 s = Py.any_in l2 s.
Proof.
  unfold Py.any_in. induction 1 as [|x l l' _ IH|x y l|l l' l'' _ IH1 _ IH2];
    simpl.
  - reflexivity.
  - rewrite IH. reflexivity.
  - rewrite !orb_assoc, (orb_comm (Py.contains y s)). reflexivity.
  - rewrite IH1. exact IH2.
Qed.

Lemma filter_dietary_order (h1 h2 : HashOrder)
  (dishes : list DishWithStomachImpact) (filters : list string) :
  possible_order h1 -> possible_order h2 ->
  _filter_dietary h1 dishes filters = _filter_dietary h2 dishes filters.
Proof.
  intros [Hv1 Hg1] [Hv2 Hg2]. unfold _filter_dietary.
  destruct filters as [|f0 rest]; [reflexivity|].
  destruct (Py.str_in "vegan" _).
  - apply filter_ext. intro d. f_equal.
    rewrite (any_in_perm _ _ _ Hv1), (any_in_perm _ _ _ Hv2). reflexivity.
  - destruct (Py.str_in "vegetarian" _); [|reflexivity].
    apply filter_ext. intro d. f_equal.
    rewrite (any_in_perm _ _ _ Hg1), (any_in_perm _ _ _ Hg2). reflexivity.
Qed.

Lemma allocator_order (self : GoalOptimizationAgent.t) (h1 h2 : HashOrder)
  (dishes : list DishWithStomachImpact) (goal : string)
  (allergies dietary_filters : option (list string)) :
  possible_order h1 -> possible_order h2 ->
  GoalOptimizationAgent.process self h1 dishes goal allergies dietary_filters
  = GoalOptimizationAgent.process self h2 dishes goal allergies dietary_filters.
Proof.
  intros H1 H2. unfold GoalOptimizationAgent.process, filtered.
  rewrite (filter_dietary_order h1 h2 _ _ H1 H2). reflexivity.
Qed.

(** C9. The pipeline after detection is deterministic: the response is a
    function of the item list, goal, calorie limit, allergen list and dietary
    filters alone.  The one thing that can differ between two runs, the order
    in which the interpreter iterates the keyword sets of the dietary filter,
    does not change any part of the response. *)
Theorem pipeline_deterministic (h1 h2 : HashOrder)
  (detected : list DetectedDish) (goal : string) (calorie_limit : option Z)
  (allergies dietary_filters : list string) :
  possible_order h1 -> possible_order h2 ->
  pipeline._run_rest_of_pipeline h1 detected goal calorie_limit
    allergies dietary_filters
  = pipeline._run_rest_of_pipeline h2 detected goal calorie_limit
      allergies dietary_filters.
Proof.
  intros H1 H2. unfold pipeline._run_rest_of_pipeline.
  destruct detected as [|d ds]; [reflexivity|].
  rewrite (allocator_order _ h1 h2 _ _ _ _ H1 H2). reflexivity.
Qed.

(** ** The theorems at concrete inputs *)

Lemma pipeline_deterministic_witness :
  pipeline._run_rest_of_pipeline written_order
    (map pipeline._detected_dish_from_manual chicken_and_rice)
    "fat_loss" None [] ["Vegan"]
  = pipeline._run_rest_of_pipeline reversed_order
      (map pipeline._detected_dish_from_manual chicken_and_rice)
      "fat_loss" None [] ["Vegan"].
Proof.
  apply pipeline_deterministic.
  - split; apply Permutation_refl.
  - split; apply Permutation_sym, Permutation_rev.
Defined.

Lemma selected_within_bounds_witness :
  Py.sum (map cal_of
            (fst (GoalOptimizationAgent.process tight_agent written_order
                    steak_and_salad "muscle_gain" None None)))
  <= inject_Z (calorie_limit tight_agent)
  /\ Py.sum (map vol_of
               (fst (GoalOptimizationAgent.process tight_agent written_order
                       steak_and_salad "muscle_gain" None None)))
     <= stomach_capacity_ml tight_agent * 1.1.
Proof.
  apply selected_within_bounds; vm_compute; discriminate.
Defined.

Lemma manual_confidence_overall_witness :
  pipeline.confidence_overall
    (pipeline.run_pipeline_manual written_order chicken_and_rice "fat_loss"
       None None None)
  == 0.9.
Proof.
  apply (manual_confidence_overall written_order chicken_and_rice "fat_loss"
           None None None).
  discriminate.
Defined.

Lemma allergen_items_left_out_witness :
  match pipeline.r_strategy
          (pipeline._run_rest_of_pipeline written_order
             (map pipeline._detected_dish_from_manual chicken_and_rice)
             "fat_loss" None ["Chicken"] []) with
  | pipeline.Planned s =>
      (forall p, In p (phases s) ->
                 ~ In "Grilled Chicken" (map PhaseItem.dish_name (items p)))
      /\ ~ In "Grilled Chicken" (map skip_name (skip s))
  | pipeline.NoPlan => False
  end.
Proof.
  assert (Hkw : Py.contains (Py.lower "Chicken") (Py.lower "Grilled Chicken")
                = true) by reflexivity.
  destruct (allergen_items_left_out written_order
              (map pipeline._detected_dish_from_manual chicken_and_rice)
              "fat_loss" None ["Chicken"] [] "Chicken" "Grilled Chicken"
              (or_introl eq_refl) Hkw) as [_ [_ H]].
  destruct (pipeline.r_strategy _); [exact H | discriminate H].
Defined.

(* ================================================================= *)
(** * Further properties of the agents *)

(** ** NutritionAgent *)

Lemma partial_match_In (db : list (string * NutritionAgent.entry))
  (name_lower : string) (v : NutritionAgent.entry) :
  NutritionAgent.partial_match db name_lower = Some v -> In v (map snd db).
Proof.
  induction db as [|[k0 v0] rest IH]; simpl; [discriminate|].
  destruct (Py.contains k0 name_lower || Py.contains name_lower k0).
  - intro H. left. congruence.
  - intro H. right. apply IH, H.
Qed.

Lemma lookup_cases (dish_name : string) :
  In (NutritionAgent._lookup dish_name)
     (NutritionAgent.default_entry :: map snd NutritionAgent._db).
Proof.
  unfold NutritionAgent._lookup.
  destruct (NutritionAgent.dict_get _ _) as [v|] eqn:E.
  - right. apply dict_get_In in E. apply (in_map snd) in E. exact E.
  - destruct (NutritionAgent.partial_match _ _) as [v|] eqn:E2.
    + right. apply partial_match_In in E2. exact E2.
    + left. reflexivity.
Qed.

Lemma table_rows_ok :
  forallb entry_ok
    (NutritionAgent.default_entry :: map snd NutritionAgent._db) = true.
Proof. vm_compute. reflexivity. Qed.

(** X1. Whatever the name of a dish, the profile that [process] attaches to
    it has positive calories and no negative protein, fat, carbohydrate,
    fiber or glycemic load: [_lookup] returns a row of the table or the
    generic default, and all of them are like that. *)
Theorem enriched_values_nonneg (d : DetectedDish) :
  let n := nutrition_per_100g (NutritionAgent.process_one d) in
  0 < calories n /\ 0 <= protein n /\ 0 <= fat n /\ 0 <= carbs n
  /\ 0 <= fiber n /\ 0 <= glycemic_load n.
Proof.
  cbv zeta. unfold NutritionAgent.process_one.
  cbn [nutrition_per_100g calories protein fat carbs fiber glycemic_load].
  pose proof table_rows_ok as Hall. rewrite forallb_forall in Hall.
  specialize (Hall _ (lookup_cases (name d))).
  unfold entry_ok in Hall. split_andb.
  repeat split;
    first [ apply Qlt_bool_iff; assumption | apply Qle_bool_iff; assumption ].
Qed.

(** X2. The two enrichment stages keep the detected dishes as they are:
    the same dishes, in the same order and number, with every detection
    field unchanged. *)
Theorem enrichment_keeps_dishes (dishes : list DetectedDish) :
  map (fun d => detected (with_nutrition d))
      (StomachPhysicsAgent.process (NutritionAgent.process dishes))
  = dishes.
Proof.
  unfold StomachPhysicsAgent.process, NutritionAgent.process.
  rewrite !map_map. rewrite <- (map_id dishes) at 2.
  apply map_ext. intros [nm c dens cm ct g]. reflexivity.
Qed.

Lemma distinct_NoDup (l : list string) : distinct l = true -> NoDup l.
Proof.
  induction l as [|x r IH]; simpl; intro H; [constructor|].
  apply andb_true_iff in H. destruct H as [Hx Hr].
  constructor; [|apply IH, Hr].
  intro Hin. apply negb_true_iff in Hx.
  assert (Py.str_in x r = true); [|congruence].
  apply existsb_exists. exists x. split; [exact Hin | apply String.eqb_refl].
Qed.

Lemma dict_get_of_In (db : list (string * NutritionAgent.entry)) (k : string)
  (v : NutritionAgent.entry) :
  NoDup (map fst db) -> In (k, v) db -> NutritionAgent.dict_get db k = Some v.
Proof.
  induction db as [|[k0 v0] rest IH]; simpl; intros Hnd Hin; [destruct Hin|].
  inversion Hnd as [|? ? Hnot Hnd']; subst.
  destruct Hin as [E|Hin].
  - inversion E; subst. rewrite String.eqb_refl. reflexivity.
  - destruct (String.eqb k k0) eqn:Ek.
    + apply String.eqb_eq in Ek. subst k0. exfalso. apply Hnot.
      apply (in_map fst) in Hin. exact Hin.
    + apply IH; assumption.
Qed.

Lemma table_keys_distinct : NoDup (map fst NutritionAgent._db).
Proof. apply distinct_NoDup. vm_compute. reflexivity. Qed.

(** X3. A name that is a key of the table once it is lower-cased and
    trimmed gets the row stored under that key, whatever partial matches
    there are: no key is in the table twice, and the exact match is tried
    first. *)
Theorem lookup_exact_key (dish_name k : string) (v : NutritionAgent.entry) :
  In (k, v) NutritionAgent._db ->
  Py.strip (Py.lower dish_name) = k ->
  NutritionAgent._lookup dish_name = v.
Proof.
  intros Hin Hk. unfold NutritionAgent._lookup. rewrite Hk.
  rewrite (dict_get_of_In _ _ _ table_keys_distinct Hin). reflexivity.
Qed.

Lemma lookup_exact_key_witness :
  NutritionAgent._lookup "  Grilled CHICKEN "
  = NutritionAgent.mkEntry (NutritionAgent.I 165) (NutritionAgent.I 31)
      (NutritionAgent.F 3 6) (NutritionAgent.I 0) (NutritionAgent.I 0)
      (NutritionAgent.I 0).
Proof.
  apply (lookup_exact_key "  Grilled CHICKEN " "grilled chicken").
  - do 2 right. left. reflexivity.
  - vm_compute. reflexivity.
Defined.

(** ** StomachPhysicsAgent *)

Lemma Qlt_bool_false (a b : Q) : Py.Qlt_bool a b = false -> ~ a < b.
Proof.
  intros H Hlt. apply Qlt_bool_iff in Hlt. congruence.
Qed.

(** X4. The digestion speed is [fast] exactly for a dish with less than 60
    kcal and less than 2 g of fat per 100 g, [slow] exactly for a dish that
    is not fast and has more than 15 g of fat, and [medium] for every other
    dish.  Fiber plays no part: the branch on fiber returns what the
    default returns. *)
Theorem digestion_speed_rules (dish : DishWithNutrition) :
  let n := nutrition_per_100g dish in
  let broth := calories n < 60 /\ fat n < 2 in
  let speed := StomachPhysicsAgent._digestion_speed dish in
  (speed = "fast" <-> broth)
  /\ (speed = "slow" <-> ~ broth /\ 15 < fat n)
  /\ (speed = "medium" <-> ~ broth /\ ~ 15 < fat n).
Proof.
  cbv zeta. unfold StomachPhysicsAgent._digestion_speed.
  destruct (Py.Qlt_bool (calories (nutrition_per_100g dish)) 60) eqn:E1;
  destruct (Py.Qlt_bool (fat (nutrition_per_100g dish)) 2) eqn:E2;
  destruct (Py.Qlt_bool 15 (fat (nutrition_per_100g dish))) eqn:E3;
  destruct (Py.Qlt_bool 5 (fiber (nutrition_per_100g dish)));
  cbn [andb];
  repeat match goal with
    | H : Py.Qlt_bool _ _ = true |- _ => apply Qlt_bool_iff in H
    | H : Py.Qlt_bool _ _ = false |- _ => apply Qlt_bool_false in H
    end;
  repeat split; intros; try discriminate; try tauto.
Qed.

(** X5. The volume of a dish is its mass divided by its density, with a
    density of 0 replaced by 1: volume times density is the mass when the
    density is not 0, and the volume is the mass when it is. *)
Theorem volume_of_mass_and_density (dish : DishWithNutrition) :
  let density := estimated_portion_density (detected dish) in
  let grams := estimated_grams (detected dish) in
  (~ density == 0 -> StomachPhysicsAgent._volume_ml dish * density == grams)
  /\ (density == 0 -> StomachPhysicsAgent._volume_ml dish == grams).
Proof.
  cbv zeta. unfold StomachPhysicsAgent._volume_ml, Py.num_or, Py.truthy.
  destruct (Qeq_bool (estimated_portion_density (detected dish)) 0) eqn:E;
    cbn [negb].
  - apply Qeq_bool_iff in E. split; [tauto|]. intros _. field.
  - apply Qeq_bool_neq in E. split; [|tauto]. intros _. field. exact E.
Qed.

(** X6. The fullness contribution stored on a dish is never above 1, and
    it is not negative for a dish whose mass and density are not negative. *)
Theorem fullness_contribution_bounds (dish : DishWithNutrition) :
  0 <= estimated_grams (detected dish) ->
  0 <= estimated_portion_density (detected dish) ->
  let impact := stomach_impact (StomachPhysicsAgent.process_one dish) in
  0 <= fullness_contribution impact /\ fullness_contribution impact <= 1.
Proof.
  intros Hg Hd. cbv zeta. unfold StomachPhysicsAgent.process_one.
  cbn [stomach_impact fullness_contribution].
  set (vol := StomachPhysicsAgent._volume_ml dish).
  set (sat := StomachPhysicsAgent._satiety_score dish).
  assert (Hsat : 0 <= sat) by apply Q.le_max_l.
  assert (Hvol : 0 <= vol).
  { unfold vol, StomachPhysicsAgent._volume_ml, Py.num_or, Py.truthy.
    destruct (Qeq_bool (estimated_portion_density (detected dish)) 0) eqn:E;
      cbn [negb].
    - unfold Qdiv. apply Qmult_le_0_compat; [exact Hg|]. discriminate.
    - apply Qeq_bool_neq in E. unfold Qdiv.
      apply Qmult_le_0_compat; [exact Hg|].
      apply Qinv_le_0_compat, Hd. }
  split.
  - apply round_nonneg. apply Q.min_glb; [lra|].
    apply Qmult_le_0_compat.
    + unfold Qdiv. apply Qmult_le_0_compat; [exact Hvol|]. discriminate.
    + lra.
  - eapply Qle_trans; [apply round_mono, Q.le_min_l|].
    vm_compute. discriminate.
Qed.

Lemma fullness_contribution_bounds_witness :
  let impact :=
    stomach_impact
      (StomachPhysicsAgent.process_one
         (NutritionAgent.process_one (detect "Soup" 200))) in
  0 <= fullness_contribution impact /\ fullness_contribution impact <= 1.
Proof.
  apply fullness_contribution_bounds; vm_compute; discriminate.
Defined.

(** ** GoalOptimizationAgent: goals and filters *)

(** X7. A goal other than [fat_loss], [muscle_gain] and [blood_sugar] is
    scored as [enjoyment_first]: the Allocator selects and skips the same
    dishes for it. *)
Theorem unknown_goal_is_enjoyment_first (self : GoalOptimizationAgent.t)
  (h : HashOrder) (dishes : list DishWithStomachImpact) (goal : string)
  (allergies dietary_filters : option (list string)) :
  goal <> "fat_loss" -> goal <> "muscle_gain" -> goal <> "blood_sugar" ->
  GoalOptimizationAgent.process self h dishes goal allergies dietary_filters
  = GoalOptimizationAgent.process self h dishes "enjoyment_first" allergies
      dietary_filters.
Proof.
  intros H1 H2 H3.
  assert (Hreward : forall d, _goal_reward d goal
                              = _goal_reward d "enjoyment_first").
  { intro d. unfold _goal_reward.
    apply String.eqb_neq in H1, H2, H3. rewrite H1, H2, H3. reflexivity. }
  unfold GoalOptimizationAgent.process, scored.
  destruct (filtered h dishes allergies dietary_filters) as [|d ds];
    [reflexivity|].
  rewrite (map_ext _ _ (fun d => f_equal (fun r => (r, d)) (Hreward d))).
  reflexivity.
Qed.

Lemma unknown_goal_is_enjoyment_first_witness :
  GoalOptimizationAgent.process tight_agent written_order steak_and_salad
    "keto" None None
  = GoalOptimizationAgent.process tight_agent written_order steak_and_salad
      "enjoyment_first" None None.
Proof.
  apply unknown_goal_is_enjoyment_first; discriminate.
Defined.

Lemma filter_dietary_nil (h : HashOrder) (filters : list string) :
  _filter_dietary h [] filters = [].
Proof.
  unfold _filter_dietary. destruct filters; [reflexivity|].
  destruct (Py.str_in "vegan" _); [reflexivity|].
  destruct (Py.str_in "vegetarian" _); reflexivity.
Qed.






(** X9. Dietary tags other than vegan and vegetarian, such as halal, change
    nothing: the Allocator returns what it returns without any dietary
    filter. *)
Theorem other_dietary_tags_ignored (self : GoalOptimizationAgent.t)
  (h : HashOrder) (dishes : list DishWithStomachImpact) (goal : string)
  (allergies : option (list string)) (dietary_filters : list string) :
  Py.str_in "vegan" (map Py.lower dietary_filters) = false ->
  Py.str_in "vegetarian" (map Py.lower dietary_filters) = false ->
  GoalOptimizationAgent.process self h dishes goal allergies
    (Some dietary_filters)
  = GoalOptimizationAgent.process self h dishes goal allergies None.
Proof.
  intros Hvegan Hveg.
  assert (E : filtered h dishes allergies (Some dietary_filters)
              = filtered h dishes allergies None).
  { unfold filtered. simpl or_empty. unfold _filter_dietary.
    destruct dietary_filters as [|f0 rest]; [reflexivity|].
    rewrite Hvegan, Hveg. reflexivity. }
  unfold GoalOptimizationAgent.process. rewrite E. reflexivity.
Qed.

Lemma other_dietary_tags_ignored_witness :
  GoalOptimizationAgent.process tight_agent written_order steak_and_salad
    "fat_loss" None (Some ["halal"])
  = GoalOptimizationAgent.process tight_agent written_order steak_and_salad
      "fat_loss" None None.
Proof.
  apply other_dietary_tags_ignored; reflexivity.
Defined.

Lemma contains_empty (s : string) : Py.contains "" s = true.
Proof. destruct s; reflexivity. Qed.

Lemma empty_allergen_filtered (h : HashOrder)
  (dishes : list DishWithStomachImpact)
  (allergies dietary_filters : list string) :
  In "" allergies ->
  filtered h dishes (Some allergies) (Some dietary_filters) = [].
Proof.
  intro Hin. unfold filtered. simpl or_empty.
  assert (E : _filter_allergies dishes allergies = []).
  { unfold _filter_allergies. destruct allergies as [|a0 rest];
      [destruct Hin|].
    apply filter_none. intros d _. apply negb_false_iff.
    apply existsb_exists. exists "". split; [|apply contains_empty].
    change "" with (Py.lower ""). apply in_map, Hin. }
  rewrite E. apply filter_dietary_nil.
Qed.

Lemma empty_allergen_process (self : GoalOptimizationAgent.t) (h : HashOrder)
  (dishes : list DishWithStomachImpact) (goal : string)
  (allergies dietary_filters : list string) :
  In "" allergies ->
  GoalOptimizationAgent.process self h dishes goal (Some allergies)
    (Some dietary_filters) = ([], []).
Proof.
  intro Hin. unfold GoalOptimizationAgent.process.
  rewrite (empty_allergen_filtered h dishes allergies dietary_filters Hin).
  reflexivity.
Qed.

(** X10. An empty allergen keyword matches every name: with one in the
    allergen list no dish reaches the selection, the Allocator returns two
    empty lists, and the plan has no phase and no skipped dish. *)
Theorem empty_allergen_removes_all (h : HashOrder)
  (detected : list DetectedDish) (goal : string) (calorie_limit : option Z)
  (allergies dietary_filters : list string) :
  In "" allergies ->
  GoalOptimizationAgent.process
    (__init__ (Some (or_default calorie_limit)) settings.STOMACH_CAPACITY_ML)
    h (StomachPhysicsAgent.process (NutritionAgent.process detected))
    goal (Some allergies) (Some dietary_filters)
  = ([], [])
  /\ match pipeline.r_strategy
             (pipeline._run_rest_of_pipeline h detected goal calorie_limit
                allergies dietary_filters) with
     | pipeline.Planned s => phases s = [] /\ skip s = []
     | pipeline.NoPlan => detected = []
     end.
Proof.
  intro Hin. split; [apply empty_allergen_process, Hin|].
  destruct detected as [|d ds]; [reflexivity|].
  rewrite run_strategy, (empty_allergen_process _ h _ goal _ _ Hin).
  vm_compute. split; reflexivity.
Qed.

Lemma empty_allergen_removes_all_witness :
  GoalOptimizationAgent.process
    (__init__ (Some (or_default None)) settings.STOMACH_CAPACITY_ML)
    written_order
    (StomachPhysicsAgent.process
       (NutritionAgent.process
          (map pipeline._detected_dish_from_manual chicken_and_rice)))
    "fat_loss" (Some ["nuts"; ""]) (Some [])
  = ([], []).
Proof.
  assert (Hin : In "" ["nuts"; ""]) by (right; left; reflexivity).
  destruct (empty_allergen_removes_all written_order
              (map pipeline._detected_dish_from_manual chicken_and_rice)
              "fat_loss" None ["nuts"; ""] [] Hin) as [H _].
  exact H.
Defined.

(** ** GoalOptimizationAgent: order and capacity *)

Lemma StronglySorted_remove {A : Type} (R : A -> A -> Prop)
  (l1 l2 : list A) (x : A) :
  StronglySorted R (l1 ++ x :: l2) -> StronglySorted R (l1 ++ l2).
Proof.
  induction l1 as [|a l1 IH]; simpl; intro H.
  - inversion H; assumption.
  - inversion H as [|? ? Hs Ha]; subst. constructor; [apply IH, Hs|].
    apply Forall_app in Ha. destruct Ha as [Ha1 Ha2].
    apply Forall_app. split; [exact Ha1|].
    inversion Ha2; assumption.
Qed.

Lemma StronglySorted_map {A B : Type} (f : A -> B) (R : A -> A -> Prop)
  (R' : B -> B -> Prop) (l : list A) :
  (forall a b, In a l -> In b l -> R a b -> R' (f a) (f b)) ->
  StronglySorted R l -> StronglySorted R' (map f l).
Proof.
  intros Hrel Hs. induction Hs as [|a l Hs IH Ha]; simpl; [constructor|].
  constructor.
  - apply IH. intros x y Hx Hy. apply Hrel; right; assumption.
  - apply Forall_forall. intros y Hy. apply in_map_iff in Hy.
    destruct Hy as [b [<- Hb]]. rewrite Forall_forall in Ha.
    apply Hrel; [left; reflexivity | right; exact Hb | apply Ha, Hb].
Qed.

Lemma loop_keeps_order (self : GoalOptimizationAgent.t)
  (R : DishWithStomachImpact -> DishWithStomachImpact -> Prop)
  (sc : list (Q * DishWithStomachImpact)) (st : loop_state) :
  StronglySorted R (selected st ++ map snd sc) ->
  StronglySorted R (selected (loop self sc st)).
Proof.
  revert st. induction sc as [|x sc IH]; intros st H.
  - simpl in *. rewrite app_nil_r in H. exact H.
  - rewrite loop_cons. apply IH. unfold step.
    destruct (fits self st (snd x)); simpl.
    + rewrite <- app_assoc. exact H.
    + apply (StronglySorted_remove R _ _ (snd x)). exact H.
Qed.

Lemma scored_by_reward (dishes : list DishWithStomachImpact) (goal : string) :
  StronglySorted (reward_ge goal) (map snd (scored dishes goal)).
Proof.
  unfold scored.
  set (pairs := map (fun d => (_goal_reward d goal, d)) dishes).
  apply (StronglySorted_map snd (Py.key_le (fun x => - fst x))).
  - intros a b Ha Hb Hab.
    assert (Hpair : forall x, In x (Py.sort_by (fun x => - fst x) pairs) ->
                              fst x = _goal_reward (snd x) goal).
    { intros x Hx. apply (Permutation_in _ (sort_by_perm _ pairs)) in Hx.
      apply in_map_iff in Hx. destruct Hx as [d [<- _]]. reflexivity. }
    unfold reward_ge. rewrite <- (Hpair a Ha), <- (Hpair b Hb).
    unfold Py.key_le in Hab. lra.
  - apply sort_by_sorted.
Qed.

(** X11. The selected dishes are in the order of their goal reward, highest
    first: no selected dish has a higher reward than one that comes before
    it in [selected]. *)
Theorem selected_by_descending_reward (self : GoalOptimizationAgent.t)
  (h : HashOrder) (dishes : list DishWithStomachImpact) (goal : string)
  (allergies dietary_filters : option (list string)) :
  StronglySorted (reward_ge goal)
    (fst (GoalOptimizationAgent.process self h dishes goal allergies
            dietary_filters)).
Proof.
  rewrite process_selected. apply loop_keeps_order. simpl.
  apply scored_by_reward.
Qed.


Lemma sum_nonneg (l : list Q) : Forall (fun x => 0 <= x) l -> 0 <= Py.sum l.
Proof.
  induction 1 as [|x l Hx _ IH].
  - unfold Py.sum. simpl. lra.
  - rewrite sum_cons. lra.
Qed.

(** ** StrategyPlanningAgent *)

Lemma round_zero (n : nat) : Py.round 0 n == 0.
Proof.
  apply Qle_antisym; [|apply round_nonneg, Qle_refl].
  unfold Py.round.
  assert (E0 : 0 * Py.pow10 n == inject_Z 0)
    by (change (inject_Z 0) with 0; ring).
  rewrite (round_half_even_compat _ _ E0), round_half_even_int.
  pose proof (pow10_pos n). change (inject_Z 0) with 0.
  unfold Qdiv. rewrite Qmult_0_l. apply Qle_refl.
Qed.

(** X13. Once a budget is used up, the portion is the floor of 20 g: this
    holds for a dish with calories when no calorie budget remains, and for
    a dish with a positive mass and volume when no stomach volume remains. *)
Theorem portion_floor_when_budget_used_up (dish : DishWithStomachImpact)
  (selected_dishes : list DishWithStomachImpact)
  (calorie_budget_remaining stomach_remaining_ml : Q) :
  budget_used_up dish calorie_budget_remaining stomach_remaining_ml ->
  fst (_compute_portion dish selected_dishes calorie_budget_remaining
         stomach_remaining_ml) == 20.
Proof.
  intro Hused. unfold _compute_portion. cbn [fst].
  set (vol_per_100 := if Py.truthy (grams_of dish) then _ else _).
  set (max_by_cal := if Py.Qlt_bool 0 (calories (nutrition_of dish))
                     then _ else _).
  set (max_by_vol := if Py.Qlt_bool 0 vol_per_100 then _ else _).
  set (m := Qmin (Qmin (Qmin (grams_of dish) max_by_cal) max_by_vol) 250).
  assert (Hm : m <= 0).
  { destruct Hused as [[Hcal Hrem]|[Hg [Hvol Hrem]]].
    - assert (Hmc : max_by_cal <= 0).
      { unfold max_by_cal. apply Qlt_bool_iff in Hcal as Hb. rewrite Hb.
        assert (calorie_budget_remaining / calories (nutrition_of dish) <= 0).
        { apply Qle_shift_div_r; [exact Hcal | lra]. }
        lra. }
      unfold m. eapply Qle_trans; [apply Q.le_min_l|].
      eapply Qle_trans; [apply Q.le_min_l|].
      eapply Qle_trans; [apply Q.le_min_r | exact Hmc].
    - assert (Hv100 : 0 < vol_per_100).
      { unfold vol_per_100, Py.truthy.
        destruct (Qeq_bool (grams_of dish) 0) eqn:E; cbn [negb]; [lra|].
        assert (Hg100 : 0 < grams_of dish / 100)
          by (apply Qlt_shift_div_l; lra).
        apply Qlt_shift_div_l; [exact Hg100|].
        rewrite Qmult_0_l. exact Hvol. }
      assert (Hmv : max_by_vol <= 0).
      { unfold max_by_vol. apply Qlt_bool_iff in Hv100 as Hb. rewrite Hb.
        assert (stomach_remaining_ml / vol_per_100 <= 0).
        { apply Qle_shift_div_r; [exact Hv100 | lra]. }
        lra. }
      unfold m. eapply Qle_trans; [apply Q.le_min_l|].
      eapply Qle_trans; [apply Q.le_min_r | exact Hmv]. }
  apply Q.max_l.
  eapply Qle_trans; [apply (round_mono _ _ 0%nat Hm)|].
  rewrite round_zero. discriminate.
Qed.

Lemma portion_floor_when_budget_used_up_witness :
  fst (_compute_portion (enrich "Steak" 100) [enrich "Steak" 100] 0
         settings.STOMACH_CAPACITY_ML) == 20.
Proof.
  apply portion_floor_when_budget_used_up.
  left. split; [vm_compute; reflexivity | apply Qle_refl].
Defined.

Lemma sum_app (l1 l2 : list Q) : Py.sum (l1 ++ l2) == Py.sum l1 + Py.sum l2.
Proof.
  induction l1 as [|x l1 IH]; simpl.
  - unfold Py.sum at 2. simpl. lra.
  - rewrite !sum_cons, IH. ring.
Qed.

Lemma plan_dish_item_ml (sel : list DishWithStomachImpact) (cl : Z)
  (acc : totals) (d : DishWithStomachImpact) :
  let out := plan_dish sel cl acc d in
  total_calories (snd out)
  = total_calories acc + PhaseItem.calories (fst out)
  /\ stomach_used_ml (snd out) = stomach_used_ml acc + item_ml (fst out).
Proof.
  cbv zeta. unfold plan_dish.
  destruct (_compute_portion _ _ _ _) as [portion reason].
  split; reflexivity.
Qed.

Lemma plan_dishes_totals (sel : list DishWithStomachImpact) (cl : Z)
  (acc : totals) (ds : list DishWithStomachImpact) :
  let out := plan_dishes sel cl acc ds in
  total_calories (snd out)
  == total_calories acc + Py.sum (map PhaseItem.calories (fst out))
  /\ stomach_used_ml (snd out)
     == stomach_used_ml acc + Py.sum (map item_ml (fst out)).
Proof.
  cbv zeta. revert acc.
  induction ds as [|d ds IH]; intro acc; cbn [plan_dishes].
  - unfold Py.sum. simpl. split; lra.
  - destruct (plan_dish_item_ml sel cl acc d) as [E1 E2].
    destruct (plan_dish sel cl acc d) as [item acc1]. cbn [fst snd] in E1, E2.
    destruct (IH acc1) as [H1 H2].
    destruct (plan_dishes sel cl acc1 ds) as [its acc2].
    cbn [fst snd] in *. simpl map. rewrite !sum_cons, H1, H2, E1, E2.
    split; ring.
Qed.

Lemma plan_phases_totals (sel : list DishWithStomachImpact) (cl : Z)
  (groups : list (string * list DishWithStomachImpact))
  (acc : totals) (names : list string) :
  let out := plan_phases sel cl groups acc names in
  total_calories (snd out)
  == total_calories acc
     + Py.sum (map PhaseItem.calories (flat_map items (fst out)))
  /\ stomach_used_ml (snd out)
     == stomach_used_ml acc + Py.sum (map item_ml (flat_map items (fst out))).
Proof.
  cbv zeta. revert acc.
  induction names as [|k names IH]; intro acc; cbn [plan_phases].
  - unfold Py.sum. simpl. split; lra.
  - destruct (plan_dishes_totals sel cl acc (group_of groups k)) as [E1 E2].
    destruct (plan_dishes sel cl acc (group_of groups k)) as [its acc1].
    cbn [fst snd] in E1, E2.
    destruct (IH acc1) as [H1 H2].
    destruct (plan_phases sel cl groups acc1 names) as [ps acc2].
    cbn [fst snd flat_map items] in *.
    rewrite !map_app, !sum_app, H1, H2, E1, E2. split; ring.
Qed.

(** The strategy dict in terms of the loop over the sorted phase names; the
    final sort of the phases finds them in order. *)
Lemma process_strategy (sel skp : list DishWithStomachImpact) (goal : string)
  (cl : Z) :
  let out :=
    plan_phases sel cl (phase_groups sel) (mkTotals 0 0)
      (Py.sort_by (fun k => inject_Z (_phase_order k))
                  (map fst (phase_groups sel))) in
  let s := fst (StrategyPlanningAgent.process sel skp goal cl) in
  phases s = fst out
  /\ strategy_total_calories s = Py.round (total_calories (snd out)) 1
  /\ strategy_stomach_used_ml s = Py.round (stomach_used_ml (snd out)) 1
  /\ fullness_score s
     = Py.round (Qmin 1 (stomach_used_ml (snd out)
                         / settings.STOMACH_CAPACITY_ML)) 2.
Proof.
  cbv zeta.
  assert (Hsorted :
    Py.sort_by (fun p => inject_Z (phase_order p))
      (fst (plan_phases sel cl (phase_groups sel) (mkTotals 0 0)
              (Py.sort_by (fun k => inject_Z (_phase_order k))
                          (map fst (phase_groups sel)))))
    = fst (plan_phases sel cl (phase_groups sel) (mkTotals 0 0)
             (Py.sort_by (fun k => inject_Z (_phase_order k))
                         (map fst (phase_groups sel))))).
  { apply sort_by_of_sorted.
    eapply (StronglySorted_Forall2 (phase_for sel cl (phase_groups sel)));
      [|apply plan_phases_spec|apply sort_by_sorted].
    intros a a' b b' [_ [Ha _]] [_ [Ha' _]] Hbb'.
    unfold Py.key_le in *. rewrite Ha, Ha'. exact Hbb'. }
  unfold StrategyPlanningAgent.process.
  destruct (plan_phases _ _ _ _ _) as [ps acc]. cbn [fst snd] in *.
  cbn [phases strategy_total_calories strategy_stomach_used_ml fullness_score].
  rewrite Hsorted. repeat split; reflexivity.
Qed.

(** X14. The totals of a plan are the totals of its items: the reported
    calories are the sum of the item calories, rounded to one decimal, and
    the reported stomach volume is the sum of what each item adds, the
    item's millilitres or its grams where the millilitres are missing or 0,
    rounded to one decimal. *)
Theorem plan_totals_are_item_sums (selected_dishes skip_dishes :
  list DishWithStomachImpact) (goal : string) (calorie_limit : Z) :
  let s :=
    fst (StrategyPlanningAgent.process selected_dishes skip_dishes goal
           calorie_limit) in
  strategy_total_calories s
  == Py.round (Py.sum (map PhaseItem.calories (plan_items s))) 1
  /\ strategy_stomach_used_ml s
     == Py.round (Py.sum (map item_ml (plan_items s))) 1.
Proof.
  cbv zeta. unfold plan_items.
  destruct (process_strategy selected_dishes skip_dishes goal calorie_limit)
    as [Hp [Hc [Hu _]]].
  rewrite Hp, Hc, Hu.
  destruct (plan_phases_totals selected_dishes calorie_limit
              (phase_groups selected_dishes) (mkTotals 0 0)
              (Py.sort_by (fun k => inject_Z (_phase_order k))
                          (map fst (phase_groups selected_dishes))))
    as [H1 H2].
  cbn [total_calories stomach_used_ml] in H1, H2.
  split; apply round_compat; try reflexivity; [rewrite H1|rewrite H2]; ring.
Qed.

Lemma planned_item_ml_nonneg (sel : list DishWithStomachImpact) (cl : Z)
  (item : PhaseItem.t) (d : DishWithStomachImpact) :
  planned_from sel cl item d -> nonneg_dish d -> 0 <= item_ml item.
Proof.
  intros [acc ->] [Hvol Hg]. unfold plan_dish.
  pose proof (compute_portion_bounds d sel
                (inject_Z cl - total_calories acc)
                (settings.STOMACH_CAPACITY_ML - stomach_used_ml acc))
    as [Hlo _].
  destruct (_compute_portion _ _ _ _) as [portion reason].
  cbn [fst] in *. unfold item_ml. cbn [PhaseItem.portion_ml
                                       PhaseItem.portion_grams].
  unfold Py.truthy. destruct (Qeq_bool (grams_of d) 0) eqn:E; cbn [negb ml_or].
  - lra.
  - apply Qeq_bool_neq in E. unfold Py.num_or.
    destruct (Py.truthy _); [|lra].
    apply round_nonneg. apply Qmult_le_0_compat; [exact Hvol|].
    unfold Qdiv. apply Qmult_le_0_compat; [lra|].
    apply Qinv_le_0_compat, Hg.
Qed.

Lemma plan_items_from_selected (sel skp : list DishWithStomachImpact)
  (goal : string) (cl : Z) (item : PhaseItem.t) :
  In item (plan_items (fst (StrategyPlanningAgent.process sel skp goal cl))) ->
  exists d, In d sel /\ planned_from sel cl item d.
Proof.
  unfold plan_items. intro Hin. apply in_flat_map in Hin.
  destruct Hin as [p [Hp Hitem]].
  destruct (process_phases_spec sel skp goal cl) as [names [_ [_ Hspec]]].
  destruct (phase_groups_spec sel) as [_ [Hgroup _]].
  destruct (Forall2_In_l Hspec Hp) as [k [_ [_ [_ Hitems]]]].
  rewrite Hgroup in Hitems.
  destruct (Forall2_In_l Hitems Hitem) as [d [Hd Hfrom]].
  exists d. split; [|exact Hfrom].
  unfold classified in Hd. apply filter_In in Hd. apply Hd.
Qed.

(** X15. The fullness score of a plan is never above 1, and for selected
    dishes whose volume and mass are not negative neither it nor the
    reported stomach volume is negative. *)
Theorem fullness_score_bounds (selected_dishes skip_dishes :
  list DishWithStomachImpact) (goal : string) (calorie_limit : Z) :
  Forall nonneg_dish selected_dishes ->
  let s :=
    fst (StrategyPlanningAgent.process selected_dishes skip_dishes goal
           calorie_limit) in
  0 <= fullness_score s /\ fullness_score s <= 1
  /\ 0 <= strategy_stomach_used_ml s.
Proof.
  intros Hsel. cbv zeta.
  assert (Hitems : Forall (fun x => 0 <= x)
                     (map item_ml
                        (plan_items
                           (fst (StrategyPlanningAgent.process selected_dishes
                                   skip_dishes goal calorie_limit))))).
  { apply Forall_map, Forall_forall. intros item Hitem.
    destruct (plan_items_from_selected _ _ _ _ _ Hitem) as [d [Hd Hfrom]].
    rewrite Forall_forall in Hsel.
    apply (planned_item_ml_nonneg _ _ _ _ Hfrom (Hsel d Hd)). }
  apply sum_nonneg in Hitems. unfold plan_items in Hitems.
  destruct (process_strategy selected_dishes skip_dishes goal calorie_limit)
    as [Hp [_ [Hu Hf]]].
  rewrite Hp in Hitems. rewrite Hu, Hf.
  destruct (plan_phases_totals selected_dishes calorie_limit
              (phase_groups selected_dishes) (mkTotals 0 0)
              (Py.sort_by (fun k => inject_Z (_phase_order k))
                          (map fst (phase_groups selected_dishes))))
    as [_ H2].
  cbn [stomach_used_ml] in H2.
  set (used := stomach_used_ml _) in *.
  assert (Hused : 0 <= used) by lra.
  split; [|split].
  - apply round_nonneg. apply Q.min_glb; [lra|].
    unfold Qdiv. apply Qmult_le_0_compat; [exact Hused|]. discriminate.
  - eapply Qle_trans; [apply round_mono, Q.le_min_l|].
    vm_compute. discriminate.
  - apply round_nonneg, Hused.
Qed.

Lemma fullness_score_bounds_witness :
  let s :=
    fst (StrategyPlanningAgent.process steak_and_salad [] "fat_loss" 2000) in
  0 <= fullness_score s /\ fullness_score s <= 1
  /\ 0 <= strategy_stomach_used_ml s.
Proof.
  apply fullness_score_bounds.
  repeat constructor; vm_compute; discriminate.
Defined.

(** X16. With nothing selected and nothing skipped the plan has no phase,
    no skipped dish and zero totals, and the explanation is the sentence of
    the goal for the four known goals and the fixed sentence about
    following the phases for any other goal. *)
Theorem plan_of_nothing (goal : string) (calorie_limit : Z) :
  let out := StrategyPlanningAgent.process [] [] goal calorie_limit in
  phases (fst out) = []
  /\ skip (fst out) = []
  /\ strategy_total_calories (fst out) == 0
  /\ fullness_score (fst out) == 0
  /\ snd out
     = match goal_hint goal with
       | EmptyString =>
           "Follow the phases in order for optimal satiety and nutrition."
       | hint => hint
       end.
Proof.
  cbv zeta. unfold StrategyPlanningAgent.process. cbn [phase_groups fold_left
    map Py.sort_by fold_right plan_phases fst snd phases skip
    strategy_total_calories fullness_score total_calories stomach_used_ml].
  repeat split; try (vm_compute; reflexivity).
  unfold _generate_explanation, goal_hint.
  destruct (String.eqb goal "fat_loss"); [vm_compute; reflexivity|].
  destruct (String.eqb goal "muscle_gain"); [vm_compute; reflexivity|].
  destruct (String.eqb goal "blood_sugar"); [vm_compute; reflexivity|].
  destruct (String.eqb goal "enjoyment_first"); vm_compute; reflexivity.
Qed.

(** X17. Every phase of a plan carries one of the five display names with
    the order index that belongs to it: Starter 1, Protein 2, Vegetables 3,
    Carbs 4, Treats 5. *)
Theorem phase_titles_and_orders (selected_dishes skip_dishes :
  list DishWithStomachImpact) (goal : string) (calorie_limit : Z) :
  Forall (fun p => In (phase_name p, phase_order p) phase_titles)
         (phases (fst (StrategyPlanningAgent.process selected_dishes
                         skip_dishes goal calorie_limit))).
Proof.
  destruct (process_phases_spec selected_dishes skip_dishes goal calorie_limit)
    as [names [Hperm [_ Hspec]]].
  destruct (phase_groups_spec selected_dishes) as [_ [_ [Hkeys _]]].
  apply Forall_forall. intros p Hp.
  destruct (Forall2_In_l Hspec Hp) as [k [Hk [Hname [Hord _]]]].
  apply (Permutation_in _ Hperm), Hkeys in Hk. destruct Hk as [d [_ Hk]].
  rewrite Hname, Hord. pose proof (classify_phase_range d) as Hrange.
  rewrite <- Hk in Hrange. clear - Hrange.
  unfold phase_names in Hrange. simpl in Hrange.
  destruct Hrange as [<-|[<-|[<-|[<-|[<-|[]]]]]]; vm_compute; tauto.
Qed.

(** X18. The rules of the phase classification have a fixed priority: a
    dish with soup, salad, broth or consomme in its name is a starter
    whatever its nutrition; a dish with more than 15 g of protein per 100 g
    is a starter or in the protein phase, never a treat, a carb or a
    vegetable; and a dish is a treat only with a treat keyword in its name. *)
Theorem classify_phase_priority (dish : DishWithStomachImpact) :
  let name_lower := Py.lower (name_of dish) in
  let phase := _classify_phase dish in
  (Py.any_in ["soup"; "salad"; "broth"; "consomme"] name_lower = true ->
   phase = "starter")
  /\ (15 < protein (nutrition_of dish) ->
      phase = "starter" \/ phase = "protein")
  /\ (phase = "treats" ->
      Py.any_in ["dessert"; "cake"; "donut"; "cookie"; "pastry"] name_lower
      = true
      /\ protein (nutrition_of dish) <= 15).
Proof.
  cbv zeta. unfold _classify_phase.
  destruct (Py.any_in ["soup"; "salad"; "broth"; "consomme"] _) eqn:E1.
  { repeat split; intros; try discriminate; auto. }
  destruct (Py.Qlt_bool 15 (protein (nutrition_of dish))) eqn:E2.
  { cbn [orb]. repeat split; intros; try discriminate; auto. }
  apply Qlt_bool_false in E2.
  split; [discriminate|]. split; [intro; contradiction|].
  cbn [orb].
  repeat match goal with
         | |- context [if ?c then _ else _] => destruct c eqn:?
         end; intro H; try discriminate H.
  split; [reflexivity|]. apply Qnot_lt_le, E2.
Qed.

(** ** Orchestrator: the stomach summary *)

Lemma digestion_speed_range (d : DishWithNutrition) :
  In (StomachPhysicsAgent._digestion_speed d) ["fast"; "medium"; "slow"].
Proof.
  unfold StomachPhysicsAgent._digestion_speed.
  repeat match goal with
         | |- context [if ?c then _ else _] => destruct c
         end; simpl; tauto.
Qed.

Lemma count_speeds (l : list DishWithStomachImpact) :
  Forall (fun d => In (digestion_speed (stomach_impact d))
                      ["fast"; "medium"; "slow"]) l ->
  (pipeline.count_speed "fast" l + pipeline.count_speed "medium" l
   + pipeline.count_speed "slow" l)%nat
  = List.length l.
Proof.
  unfold pipeline.count_speed.
  induction 1 as [|d l Hd _ IH]; [reflexivity|].
  simpl in Hd. simpl filter.
  destruct Hd as [E|[E|[E|[]]]]; rewrite <- E; simpl; lia.
Qed.

Lemma filter_allergies_incl (dishes : list DishWithStomachImpact)
  (allergies : list string) :
  incl (_filter_allergies dishes allergies) dishes.
Proof.
  unfold _filter_allergies. destruct allergies; [apply incl_refl|].
  apply incl_filter.
Qed.

Lemma run_simulation (h : HashOrder) (d : DetectedDish)
  (ds : list DetectedDish) (goal : string) (calorie_limit : option Z)
  (allergies dietary_filters : list string) :
  let dishes :=
    StomachPhysicsAgent.process (NutritionAgent.process (d :: ds)) in
  let out :=
    GoalOptimizationAgent.process
      (__init__ (Some (or_default calorie_limit)) settings.STOMACH_CAPACITY_ML)
      h dishes goal (Some allergies) (Some dietary_filters) in
  pipeline.r_stomach_simulation
    (pipeline._run_rest_of_pipeline h (d :: ds) goal calorie_limit
       allergies dietary_filters)
  = Some (pipeline._build_stomach_simulation dishes (fst out)).
Proof.
  intros dishes out. unfold pipeline._run_rest_of_pipeline.
  fold dishes. fold out. destruct out as [sel skp]. cbn [fst].
  destruct (StrategyPlanningAgent.process sel skp goal
              (or_default calorie_limit)) as [st ex].
  cbn [pipeline.r_stomach_simulation]. reflexivity.
Qed.

(** X19. In a response the three digestion counts of the stomach summary
    add up to the number of items in the plan: every selected dish is
    counted under exactly one of fast, medium and slow, and every selected
    dish is planned once. *)
Theorem digestion_counts_cover_plan (h : HashOrder)
  (detected : list DetectedDish) (goal : string) (calorie_limit : option Z)
  (allergies dietary_filters : list string) :
  let r :=
    pipeline._run_rest_of_pipeline h detected goal calorie_limit allergies
      dietary_filters in
  match pipeline.r_stomach_simulation r, pipeline.r_strategy r with
  | Some sim, pipeline.Planned s =>
      (pipeline.digestion_fast sim + pipeline.digestion_medium sim
       + pipeline.digestion_slow sim)%nat
      = List.length (plan_items s)
  | None, pipeline.NoPlan => detected = []
  | _, _ => False
  end.
Proof.
  cbv zeta. destruct detected as [|d ds]; [reflexivity|].
  rewrite run_simulation, run_strategy.
  set (dishes := StomachPhysicsAgent.process
                   (NutritionAgent.process (d :: ds))).
  set (out := GoalOptimizationAgent.process _ h dishes goal _ _).
  unfold pipeline._build_stomach_simulation.
  cbn [pipeline.digestion_fast pipeline.digestion_medium
       pipeline.digestion_slow].
  rewrite count_speeds.
  - pose proof (phase_item_names (fst out) (snd out) goal
                  (or_default calorie_limit)) as Hperm.
    apply Permutation_length in Hperm. rewrite !length_map in Hperm.
    symmetry. exact Hperm.
  - apply Forall_forall. intros x Hx.
    apply (selected_incl_filtered _ _ _ _ _ _ _) in Hx.
    unfold filtered in Hx. apply filter_dietary_incl in Hx.
    apply filter_allergies_incl in Hx.
    unfold dishes, StomachPhysicsAgent.process in Hx.
    apply in_map_iff in Hx. destruct Hx as [dn [<- _]].
    apply digestion_speed_range.
Qed.

(** ** Comma-separated lists: the frontend and the analyze route *)

Section Split.
Variable sep : ascii.

Lemma split_not_nil (s : string) : Py.split sep s <> [].
Proof.
  destruct s as [|c r]; simpl; [discriminate|].
  destruct (Ascii.eqb c sep); [discriminate|].
  destruct (Py.split sep r); discriminate.
Qed.

Lemma split_without_sep (s : string) :
  Py.has_char sep s = false -> Py.split sep s = [s].
Proof.
  induction s as [|c r IH]; simpl; intro H; [reflexivity|].
  apply orb_false_iff in H. destruct H as [Hc Hr].
  rewrite Hc, (IH Hr). reflexivity.
Qed.

Lemma split_pieces (s : string) :
  Forall (fun piece => Py.has_char sep piece = false) (Py.split sep s).
Proof.
  induction s as [|c r IH]; simpl.
  - constructor; [reflexivity|constructor].
  - destruct (Ascii.eqb c sep) eqn:E.
    + constructor; [reflexivity | exact IH].
    + destruct (Py.split sep r) as [|piece pieces].
      * constructor; [simpl; rewrite E; reflexivity | constructor].
      * inversion IH; subst. constructor; [|assumption].
        simpl. rewrite E. assumption.
Qed.

Lemma split_app (a b : string) :
  Py.has_char sep a = false ->
  Py.split sep (a ++ String sep b) = a :: Py.split sep b.
Proof.
  induction a as [|c r IH]; simpl; intro H.
  - rewrite Ascii.eqb_refl. reflexivity.
  - apply orb_false_iff in H. destruct H as [Hc Hr].
    rewrite Hc, (IH Hr). reflexivity.
Qed.

Lemma split_trailing_sep (s : string) :
  exists first rest,
    Py.split sep (s ++ String sep "") = (first :: rest) ++ [""].
Proof.
  induction s as [|c r [first [rest IH]]]; simpl.
  - rewrite Ascii.eqb_refl. exists "", []. reflexivity.
  - destruct (Ascii.eqb c sep).
    + rewrite IH. exists "", (first :: rest). reflexivity.
    + rewrite IH. exists (String c first), rest. reflexivity.
Qed.
End Split.

Lemma lstrip_has_char (c : ascii) (s : string) :
  Py.has_char c s = false -> Py.has_char c (Py.lstrip s) = false.
Proof.
  induction s as [|x r IH]; simpl; intro H; [reflexivity|].
  apply orb_false_iff in H. destruct H as [Hx Hr].
  destruct (Py.isspace x); [apply IH, Hr|]. simpl. rewrite Hx. exact Hr.
Qed.

Lemma rstrip_has_char (c : ascii) (s : string) :
  Py.has_char c s = false -> Py.has_char c (Py.rstrip s) = false.
Proof.
  induction s as [|x r IH]; simpl; intro H; [reflexivity|].
  apply orb_false_iff in H. destruct H as [Hx Hr]. specialize (IH Hr).
  destruct (Py.rstrip r) as [|y r'].
  - destruct (Py.isspace x); [reflexivity|]. simpl. rewrite Hx. reflexivity.
  - simpl. rewrite Hx. exact IH.
Qed.

Lemma rstrip_idem (s : string) : Py.rstrip (Py.rstrip s) = Py.rstrip s.
Proof.
  induction s as [|x r IH]; simpl; [reflexivity|].
  destruct (Py.rstrip r) as [|y r'] eqn:E.
  - destruct (Py.isspace x) eqn:Ex; simpl; [reflexivity|].
    rewrite Ex. reflexivity.
  - simpl in IH |- *. rewrite IH. reflexivity.
Qed.

Lemma lstrip_fixed (s : string) :
  Py.lstrip s = s ->
  Py.lstrip (Py.rstrip s) = Py.rstrip s.
Proof.
  destruct s as [|x r]; simpl; [reflexivity|].
  destruct (Py.isspace x) eqn:Ex.
  - intro H. exfalso.
    assert (Hlen : forall t,
               (String.length (Py.lstrip t) <= String.length t)%nat).
    { intro t. induction t as [|y t IHt]; simpl; [lia|].
      destruct (Py.isspace y); simpl; lia. }
    pose proof (Hlen r) as Hr. rewrite H in Hr. simpl in Hr. lia.
  - intros _. destruct (Py.rstrip r); simpl; rewrite Ex; reflexivity.
Qed.

Lemma lstrip_idem (s : string) : Py.lstrip (Py.lstrip s) = Py.lstrip s.
Proof.
  induction s as [|x r IH]; simpl; [reflexivity|].
  destruct (Py.isspace x) eqn:Ex; [exact IH|]. simpl. rewrite Ex. reflexivity.
Qed.

Lemma strip_idem (s : string) : Py.strip (Py.strip s) = Py.strip s.
Proof.
  unfold Py.strip.
  rewrite (lstrip_fixed (Py.lstrip s) (lstrip_idem s)). apply rstrip_idem.
Qed.

Lemma strip_has_char (c : ascii) (s : string) :
  Py.has_char c s = false -> Py.has_char c (Py.strip s) = false.
Proof.
  intro H. unfold Py.strip. apply rstrip_has_char, lstrip_has_char, H.
Qed.

Lemma split_join (x : string) (rest : list string) :
  Forall (fun piece => Py.has_char "," piece = false) (x :: rest) ->
  Py.split "," (Py.join ", " (x :: rest)) = x :: map (String " ") rest.
Proof.
  revert x. induction rest as [|y rest IH]; intros x H.
  - inversion H; subst. simpl. apply split_without_sep. assumption.
  - inversion H as [|? ? Hx Hrest]; subst.
    change (Py.join ", " (x :: y :: rest))
      with (x ++ String "," (String " " (Py.join ", " (y :: rest))))%string.
    rewrite (split_app _ _ _ Hx).
    change (Py.split "," (String " " (Py.join ", " (y :: rest))))
      with (match Py.split "," (Py.join ", " (y :: rest)) with
            | piece :: pieces => String " " piece :: pieces
            | [] => [String " " ""]
            end).
    rewrite (IH y Hrest). reflexivity.
Qed.

(** The pieces that [_split_csv] returns: trimmed, without a comma, and
    not empty. *)
Lemma split_csv_pieces (text : option string) :
  Forall (fun a => Py.strip a = a /\ Py.has_char "," a = false
                   /\ Py.nonempty a = true)
         (frontend._split_csv text).
Proof.
  unfold frontend._split_csv. apply Forall_forall. intros a Ha.
  apply in_map_iff in Ha. destruct Ha as [piece [<- Hpiece]].
  apply filter_In in Hpiece. destruct Hpiece as [Hin Hne].
  split; [apply strip_idem|]. split; [|exact Hne].
  apply strip_has_char.
  pose proof (split_pieces "," (match text with
                                | Some t => t
                                | None => ""
                                end)) as Hall.
  rewrite Forall_forall in Hall. apply Hall, Hin.
Qed.

(** X20. What the frontend makes of its comma-separated text field comes
    back unchanged from the analyze route: joining the pieces with a comma
    and a blank and sending them as one form field, or sending no field
    when there are none, and splitting and trimming the field again on the
    server gives the list the frontend had.  None of the pieces is empty. *)
Theorem frontend_list_round_trip (text : option string) :
  analyze.comma_list (frontend.form_field (frontend._split_csv text))
  = frontend._split_csv text
  /\ ~ In "" (frontend._split_csv text).
Proof.
  pose proof (split_csv_pieces text) as Hall.
  split.
  - destruct (frontend._split_csv text) as [|x rest]; [reflexivity|].
    unfold frontend.form_field, analyze.comma_list.
    assert (Hcomma : Forall (fun piece => Py.has_char "," piece = false)
                            (x :: rest)).
    { eapply Forall_impl; [|exact Hall]. intros a [_ [Ha _]]. exact Ha. }
    assert (Hne : Py.nonempty (Py.join ", " (x :: rest)) = true).
    { inversion Hall as [|? ? [_ [_ Hx]] _]; subst.
      destruct x as [|c r]; [discriminate|]. destruct rest; reflexivity. }
    rewrite Hne, (split_join x rest Hcomma).
    inversion Hall as [|? ? [Hx _] Hrest]; subst.
    cbn [map]. rewrite Hx. f_equal.
    rewrite map_map. rewrite <- (map_id rest) at 2.
    apply map_ext_in. intros a Ha. rewrite Forall_forall in Hrest.
    destruct (Hrest a Ha) as [Hstrip _].
    change (Py.strip (String " " a)) with (Py.strip a). exact Hstrip.
  - intro Hin. rewrite Forall_forall in Hall.
    destruct (Hall "" Hin) as [_ [_ H]]. discriminate H.
Qed.

(** X21. An allergies field that ends in a comma reaches the pipeline with
    an empty keyword in it, and the plan for it has no phase and no skipped
    dish, whatever was detected. *)
Theorem trailing_comma_empties_plan (h : HashOrder)
  (detected : list DetectedDish) (goal : string) (calorie_limit : option Z)
  (text : string) (dietary_filters : option string) :
  In "" (analyze.comma_list (Some (text ++ ",")%string))
  /\ match pipeline.r_strategy
             (analyze.analyze_buffet h detected goal calorie_limit
                (Some (text ++ ",")%string) dietary_filters) with
     | pipeline.Planned s => phases s = [] /\ skip s = []
     | pipeline.NoPlan => detected = []
     end.
Proof.
  assert (Hin : In "" (analyze.comma_list (Some (text ++ ",")%string))).
  { unfold analyze.comma_list.
    assert (Hne : Py.nonempty (text ++ ",") = true)
      by (destruct text; reflexivity).
    rewrite Hne.
    destruct (split_trailing_sep "," text) as [first [rest E]].
    rewrite E, map_app. apply in_or_app. right. left. reflexivity. }
  split; [exact Hin|].
  unfold analyze.analyze_buffet. cbn [or_empty].
  destruct detected as [|d ds]; [reflexivity|].
  rewrite run_strategy, (empty_allergen_process _ h _ goal _ _ Hin).
  vm_compute. split; reflexivity.
Qed.

(** ** Orchestrator: the summaries *)





(** X22. In every response the selected volume of the stomach summary is
    at most 1485 ml, the configured capacity of 1350 ml with the tolerance
    of one tenth. *)
Theorem selected_volume_within_capacity (h : HashOrder)
  (detected : list DetectedDish) (goal : string) (calorie_limit : option Z)
  (allergies dietary_filters : list string) :
  match pipeline.r_stomach_simulation
          (pipeline._run_rest_of_pipeline h detected goal calorie_limit
             allergies dietary_filters) with
  | Some sim => pipeline.selected_volume_ml sim <= 1485
  | None => detected = []
  end.
Proof.
  destruct detected as [|d ds]; [reflexivity|].
  rewrite run_simulation. unfold pipeline._build_stomach_simulation.
  cbn [pipeline.selected_volume_ml]. rewrite process_selected.
  set (self := __init__ (Some (or_default calorie_limit))
                        settings.STOMACH_CAPACITY_ML).
  set (sc := scored _ goal).
  destruct (loop_keeps_invariant self sc init (init_invariant self))
    as [_ [Hv Hb]].
  assert (Hsum : Py.sum (map vol_of (selected (loop self sc init))) <= 1485).
  { destruct Hb as [Hnil|[_ Hb]].
    - rewrite Hnil. vm_compute. discriminate.
    - rewrite <- Hv. eapply Qle_trans; [exact Hb|].
      vm_compute. discriminate. }
  eapply Qle_trans; [apply (round_mono _ _ 1%nat Hsum)|].
  vm_compute. discriminate.
Qed.



Lemma lookup_entry_ok (dish_name : string) :
  entry_ok (NutritionAgent._lookup dish_name) = true.
Proof.
  pose proof table_rows_ok as Hall. rewrite forallb_forall in Hall.
  apply Hall, lookup_cases.
Qed.

Lemma scaled_total_nonneg (f : NutritionalData -> Q)
  (l : list DishWithNutrition) (a : Q) :
  0 <= a ->
  Forall (fun d => 0 <= f (nutrition_per_100g d)
                   /\ 0 <= estimated_grams (detected d)) l ->
  0 <= fold_left
         (fun total d =>
            total + f (nutrition_per_100g d)
                    * (estimated_grams (detected d) / 100))
         l a.
Proof.
  intros Ha Hl. revert a Ha.
  induction Hl as [|d l [Hf Hg] _ IH]; intros a Ha; simpl; [exact Ha|].
  apply IH.
  assert (0 <= f (nutrition_per_100g d) * (estimated_grams (detected d) / 100)).
  { apply Qmult_le_0_compat; [exact Hf|].
    apply Qle_shift_div_l; [reflexivity|]. lra. }
  lra.
Qed.

Lemma run_nutrition_summary (h : HashOrder) (d : DetectedDish)
  (ds : list DetectedDish) (goal : string) (calorie_limit : option Z)
  (allergies dietary_filters : list string) :
  pipeline.r_nutrition_summary
    (pipeline._run_rest_of_pipeline h (d :: ds) goal calorie_limit
       allergies dietary_filters)
  = Some (pipeline._build_nutrition_summary
            (NutritionAgent.process (d :: ds))).
Proof.
  unfold pipeline._run_rest_of_pipeline.
  destruct (GoalOptimizationAgent.process _ _ _ _ _ _) as [sel skp].
  destruct (StrategyPlanningAgent.process sel skp goal
              (or_default calorie_limit)) as [st ex].
  cbn [pipeline.r_nutrition_summary]. reflexivity.
Qed.

(** X24. The nutrition summary of a response covers every detected dish,
    also the ones that the filters remove or the Allocator skips: its dish
    count is the number of detected dishes whatever the goal, the limit and
    the filters are, and for dishes whose mass is not negative none of its
    six totals is negative. *)
Theorem nutrition_summary_covers_all (h : HashOrder)
  (detected : list DetectedDish) (goal : string) (calorie_limit : option Z)
  (allergies dietary_filters : list string) :
  Forall (fun d => 0 <= estimated_grams d) detected ->
  match pipeline.r_nutrition_summary
          (pipeline._run_rest_of_pipeline h detected goal calorie_limit
             allergies dietary_filters) with
  | Some sm =>
      pipeline.dish_count sm = List.length detected
      /\ 0 <= pipeline.total_available_calories sm
      /\ 0 <= pipeline.total_protein_g sm
      /\ 0 <= pipeline.total_fat_g sm
      /\ 0 <= pipeline.total_carbs_g sm
      /\ 0 <= pipeline.total_fiber_g sm
      /\ 0 <= pipeline.total_glycemic_load sm
  | None => detected = []
  end.
Proof.
  intro Hpos. destruct detected as [|d ds]; [reflexivity|].
  rewrite run_nutrition_summary. unfold pipeline._build_nutrition_summary.
  cbn [pipeline.dish_count pipeline.total_available_calories
       pipeline.total_protein_g pipeline.total_fat_g pipeline.total_carbs_g
       pipeline.total_fiber_g pipeline.total_glycemic_load].
  assert (Hrows : Forall (fun x =>
             (0 <= calories (nutrition_per_100g x)
              /\ 0 <= protein (nutrition_per_100g x)
              /\ 0 <= fat (nutrition_per_100g x)
              /\ 0 <= carbs (nutrition_per_100g x)
              /\ 0 <= fiber (nutrition_per_100g x)
              /\ 0 <= glycemic_load (nutrition_per_100g x))
             /\ 0 <= estimated_grams (detected x))
            (NutritionAgent.process (d :: ds))).
  { apply Forall_forall. intros x Hx. unfold NutritionAgent.process in Hx.
    apply in_map_iff in Hx. destruct Hx as [dd [<- Hdd]].
    rewrite Forall_forall in Hpos. split; [|exact (Hpos _ Hdd)].
    unfold NutritionAgent.process_one.
    cbn [nutrition_per_100g calories protein fat carbs fiber glycemic_load].
    pose proof (lookup_entry_ok (name dd)) as Hok.
    unfold entry_ok in Hok. split_andb.
    repeat split;
      first [ apply Qlt_le_weak, Qlt_bool_iff; assumption
            | apply Qle_bool_iff; assumption ]. }
  split; [unfold NutritionAgent.process; apply length_map|].
  repeat split; apply round_nonneg, scaled_total_nonneg;
    try apply Qle_refl;
    (eapply Forall_impl; [|exact Hrows]); cbv beta; intros x Hx; tauto.
Qed.

Lemma nutrition_summary_covers_all_witness :
  match pipeline.r_nutrition_summary
          (pipeline._run_rest_of_pipeline written_order
             (map pipeline._detected_dish_from_manual chicken_and_rice)
             "fat_loss" None ["chicken"] []) with
  | Some sm => pipeline.dish_count sm = 2%nat
  | None => False
  end.
Proof.
  assert (Hpos : Forall (fun d => 0 <= estimated_grams d)
                   (map pipeline._detected_dish_from_manual chicken_and_rice))
    by (repeat constructor; vm_compute; discriminate).
  pose proof (nutrition_summary_covers_all written_order
                (map pipeline._detected_dish_from_manual chicken_and_rice)
                "fat_loss" None ["chicken"] [] Hpos) as H.
  destruct (pipeline.r_nutrition_summary _); [apply H | discriminate H].
Defined.
